(** * Command decoration and dispatch: [src/operations/command.ts]

    A shallow embedding of [CommandOperation] (constructor, [canRetryWrite],
    [executeCommand]) and the properties of its decoration pipeline.

    JavaScript objects are kept as association lists in insertion order: the
    first key of a command document is its verb, so the order of the fields is
    part of the data.  Mutation of the caller's command document is made
    explicit: [executeCommand] returns the final state of that document next
    to the trace of the calls it made (callback, logger, transport). *)

From Stdlib Require Import ZArith List String Bool Lia DecimalString.
Import ListNotations.
Local Open Scope string_scope.
Local Open Scope Z_scope.
Set Warnings "-register-all".

(* ===================================================================== *)
(** ** JavaScript values and objects *)
(* ===================================================================== *)

Module JS.

(** The values the operation inspects.  Numbers are the integer-valued ones
    (wire versions, [maxTimeMS]). *)
Inductive Value : Type :=
| VUndefined
| VNull
| VBoolean (b : bool)
| VNumber (n : Z)
| VString (s : string)
| VObject (fields : list (string * Value))
| VArray (items : list Value).

(** A [Document] is a plain object: its own properties in insertion order.
    Keys are property names that are not integer-like (JavaScript lists
    integer-like keys such as ["0"] first, whatever the insertion order);
    nothing below relies on the position of a key in an options bag. *)
Definition Document : Type := list (string * Value).

Inductive TypeTag : Type :=
| TUndefined | TObject | TBoolean | TNumber | TString.

(** [typeof v] ([typeof null] and [typeof []] are ['object']). *)
Definition typeof (v : Value) : TypeTag :=
  match v with
  | VUndefined => TUndefined
  | VNull => TObject
  | VBoolean _ => TBoolean
  | VNumber _ => TNumber
  | VString _ => TString
  | VObject _ => TObject
  | VArray _ => TObject
  end.

Definition TypeTag_eqb (a b : TypeTag) : bool :=
  match a, b with
  | TUndefined, TUndefined | TObject, TObject | TBoolean, TBoolean
  | TNumber, TNumber | TString, TString => true
  | _, _ => false
  end.

(** [ToBoolean]: what [if (v)], [v && ...] and [!!v] test. *)
Definition truthy (v : Value) : bool :=
  match v with
  | VUndefined | VNull => false
  | VBoolean b => b
  | VNumber n => negb (n =? 0)
  | VString s => negb (s =? "")%string
  | VObject _ | VArray _ => true
  end.

(** [v === undefined] *)
Definition is_undefined (v : Value) : bool :=
  match v with VUndefined => true | _ => false end.

(** [a || b] *)
Definition or_else (a b : Value) : Value := if truthy a then a else b.

(** Own property lookup. *)
Fixpoint lookup (d : Document) (k : string) : option Value :=
  match d with
  | [] => None
  | (k', v) :: rest => if (k' =? k)%string then Some v else lookup rest k
  end.

(** Property read [d.k]: [undefined] when the property is absent. *)
Definition get (d : Document) (k : string) : Value :=
  match lookup d k with Some v => v | None => VUndefined end.

(** Optional chaining [o?.k] on an optional object. *)
Definition get_opt (o : option Document) (k : string) : Value :=
  match o with Some d => get d k | None => VUndefined end.

(** Property write [d.k = v]: an existing property keeps its place, a new
    one goes last. *)
Fixpoint set_prop (d : Document) (k : string) (v : Value) : Document :=
  match d with
  | [] => [(k, v)]
  | (k', v') :: rest =>
      if (k' =? k)%string then (k', v) :: rest
      else (k', v') :: set_prop rest k v
  end.

(** [Object.assign(target, source)]: for each own key of [source], in
    order, read it from [source] and write it on [target]. *)
Definition Object_assign (target source : Document) : Document :=
  fold_left (fun acc k => set_prop acc k (get source k)) (map fst source) target.

(** Spreading an optional object into a literal: [{ ...acc, ...o }]. *)
Definition spread (acc : Document) (o : option Document) : Document :=
  match o with Some d => Object_assign acc d | None => acc end.

(** Template-literal rendering of an integer. *)
Definition Number_toString (n : Z) : string :=
  NilZero.string_of_int (Z.to_int n).

End JS.
Import JS.

(* ===================================================================== *)
(** ** The collaborators of [CommandOperation] *)
(* ===================================================================== *)

(** [MongoError]: the error class of [../error], reduced to its message. *)
Record MongoError : Type := mkMongoError { message : string }.

(** The outcome of code that may [throw]. *)
Inductive Completion (A : Type) : Type :=
| Returned (a : A)
| Thrown (e : MongoError).
Arguments Returned {A} a.
Arguments Thrown {A} e.

Definition bind {A B : Type} (c : Completion A) (k : A -> Completion B)
  : Completion B :=
  match c with
  | Returned a => k a
  | Thrown e => Thrown e
  end.

(** The aspects of [./operation] that [command.ts] tests, and the others. *)
Inductive Aspect : Type :=
| EXPLAINABLE
| WRITE_OPERATION
| OTHER_ASPECT (tag : string).

Definition Aspect_eqb (a b : Aspect) : bool :=
  match a, b with
  | EXPLAINABLE, EXPLAINABLE => true
  | WRITE_OPERATION, WRITE_OPERATION => true
  | OTHER_ASPECT s, OTHER_ASPECT t => (s =? t)%string
  | _, _ => false
  end.

(** Modelled from the spec: the class [MongoDBNamespace] ([../utils]) is not
    among the sources.  "Namespace - identifies a (database, collection)
    pair"; [new MongoDBNamespace(db, collection)] stores what it is given. *)
Record MongoDBNamespace : Type := mkMongoDBNamespace {
  db : Value;
  collection : Value
}.

(** Modelled from the spec: [MongoDBNamespace.withCollection] is not among
    the sources.  "A parent entity's existing namespace (database
    substituted, pseudo-collection appended)", "reuses the parent's
    database": the database is kept and the collection replaced. *)
Definition withCollection (ns : MongoDBNamespace) (c : string) : MongoDBNamespace :=
  mkMongoDBNamespace (db ns) (VString c).

(** The value objects of [../read_concern], [../write_concern] and
    [../explain]: a concern is kept as the document of its fields, an explain
    directive carries its verbosity. *)
Definition ReadConcern : Type := Document.
Definition WriteConcern : Type := Document.
Record Explain : Type := mkExplain { verbosity : string }.

(** [Logger]: only [isDebug()] is consulted. *)
Record Logger : Type := mkLogger { isDebug : bool }.

(** [ClientSession]: only the transaction-active predicate is consulted. *)
Record ClientSession : Type := mkClientSession { inTransaction : bool }.

(** [Server]: its name and the description the wire version is read from. *)
Record Server : Type := mkServer {
  name : string;
  description_maxWireVersion : Z
}.

(** [OperationParent], the fields the constructor reads. *)
Record OperationParent : Type := mkOperationParent {
  s_namespace : MongoDBNamespace;
  parent_logger : option Logger
}.

(** The functions [command.ts] imports and whose bodies are not among the
    sources: they are an interface the operation is verified against. *)
Class Imports : Type := {
  (* ../utils *)
  maxWireVersion : Server -> Z;
  decorateWithExplain : Document -> Explain -> Document;
  namespace_toString : MongoDBNamespace -> string;
  (* ../sessions *)
  commandSupportsReadConcern : Document -> bool;
  (* ../read_concern, ../write_concern, ../explain *)
  ReadConcern_fromOptions : option Document -> option ReadConcern;
  WriteConcern_fromOptions : option Document -> option WriteConcern;
  Explain_fromOptions : option Document -> Completion (option Explain);
  (* ./operation: the BSON options OperationBase keeps *)
  resolveBSONOptions : option Document -> option Document
}.

(* ===================================================================== *)
(** ** [CommandOperation] *)
(* ===================================================================== *)

Definition SUPPORTS_WRITE_CONCERN_AND_COLLATION : Z := 5.

(** The fields of a [CommandOperation].  [aspects] is the static set of its
    kind; [options], [bsonOptions], [session] and [server] are the fields it
    inherits from [OperationBase]. *)
Record CommandOperation : Type := mkCommandOperation {
  aspects : list Aspect;
  options : Document;
  bsonOptions : option Document;
  session : option ClientSession;
  server : option Server;
  ns : MongoDBNamespace;
  readConcern : option ReadConcern;
  writeConcern : option WriteConcern;
  explain : option Explain;
  fullResponse : option bool;
  logger : option Logger
}.

(** Modelled from the spec: [OperationBase.hasAspect] ([./operation]) is not
    among the sources.  "Each Command Operation instance statically declares
    zero or more aspects": membership in the kind's aspect set. *)
Definition declares (asp : list Aspect) (a : Aspect) : bool :=
  existsb (Aspect_eqb a) asp.

Definition hasAspect (this : CommandOperation) (a : Aspect) : bool :=
  declares (aspects this) a.

(** What a call leaves behind in the outside world, in order. *)
Inductive Event : Type :=
| CallbackError (err : MongoError)
    (* [callback(err)] *)
| LoggerDebug (cmd : Document) (target : MongoDBNamespace)
    (* [this.logger.debug(`executing command ${cmd} against ${ns}`)] *)
| ServerCommand (nsString : string) (cmd : Document) (execOptions : Document).
    (* [server.command(ns, cmd, execOptions, callback)] *)

(** The state after [executeCommand]: the operation, the caller's command
    document as the in-place writes left it, and the calls made. *)
Record Outcome : Type := mkOutcome {
  operation : CommandOperation;
  callerCmd : Document;
  events : list Event
}.

Definition isSome {A : Type} (o : option A) : bool :=
  match o with Some _ => true | None => false end.

(** The commands handed to the transport during a call. *)
Fixpoint sentCommands (evs : list Event) : list (string * Document * Document) :=
  match evs with
  | [] => []
  | ServerCommand n c o :: rest => (n, c, o) :: sentCommands rest
  | _ :: rest => sentCommands rest
  end.

(** The errors delivered through the callback during a call. *)
Fixpoint reportedErrors (evs : list Event) : list MongoError :=
  match evs with
  | [] => []
  | CallbackError e :: rest => e :: reportedErrors rest
  | _ :: rest => reportedErrors rest
  end.

Section Operation.
Context {imports : Imports}.

(** [this.server = server] *)
Definition with_server (this : CommandOperation) (srv : Server) : CommandOperation :=
  mkCommandOperation (aspects this) (options this) (bsonOptions this)
    (session this) (Some srv) (ns this) (readConcern this) (writeConcern this)
    (explain this) (fullResponse this) (logger this).

(** [options?.dbName || options?.authdb] *)
Definition dbNameOverride (opts : option Document) : Value :=
  or_else (get_opt opts "dbName") (get_opt opts "authdb").

(** Lines 68-75: the namespace of a new operation. *)
Definition resolve_ns (parent : option OperationParent) (opts : option Document)
  : MongoDBNamespace :=
  if truthy (dbNameOverride opts) then
    mkMongoDBNamespace (dbNameOverride opts) (VString "$cmd")
  else
    match parent with
    | Some p => withCollection (s_namespace p) "$cmd"
    | None => mkMongoDBNamespace (VString "admin") (VString "$cmd")
    end.

(** Lines 79-80:
    [options && typeof options.fullResponse === 'boolean' ? options.fullResponse : false] *)
Definition resolve_fullResponse (opts : option Document) : bool :=
  match opts with
  | Some o =>
      match get o "fullResponse" with
      | VBoolean b => b
      | _ => false
      end
  | None => false
  end.

(** Lines 83-85: [if (parent && parent.logger) this.logger = parent.logger] *)
Definition resolve_logger (parent : option OperationParent) : option Logger :=
  match parent with
  | Some p => parent_logger p
  | None => None
  end.

(** Modelled from the spec: the constructor of [OperationBase]
    ([./operation]), which [super(options)] runs, is not among the sources.
    [this.options] is "the caller's original options": a fresh object with
    the properties of [options], empty when none were given. *)
Definition OperationBase_options (opts : option Document) : Document :=
  spread [] opts.

(** The constructor, for an operation kind with the static aspect set [asp].
    After [super(options)] no session and no server are attached yet. *)
Definition new_CommandOperation (asp : list Aspect)
  (parent : option OperationParent) (opts : option Document)
  : Completion CommandOperation :=
  let base :=
    mkCommandOperation asp (OperationBase_options opts)
      (resolveBSONOptions opts) None None
      (resolve_ns parent opts)
      (ReadConcern_fromOptions opts)
      (WriteConcern_fromOptions opts)
      None
      (Some (resolve_fullResponse opts))
      (resolve_logger parent) in
  if hasAspect base EXPLAINABLE then
    bind (Explain_fromOptions opts) (fun e =>
      Returned (mkCommandOperation (aspects base) (options base)
        (bsonOptions base) (session base) (server base) (ns base)
        (readConcern base) (writeConcern base) e (fullResponse base)
        (logger base)))
  else if negb (is_undefined (get_opt opts "explain")) then
    Thrown (mkMongoError "explain is not supported on this command")
  else
    Returned base.

(** [get canRetryWrite()] *)
Definition canRetryWrite (this : CommandOperation) : bool :=
  if hasAspect this EXPLAINABLE then negb (isSome (explain this))
  else true.

(** [this.session && this.session.inTransaction()], as a condition. *)
Definition in_transaction (this : CommandOperation) : bool :=
  match session this with
  | Some s => inTransaction s
  | None => false
  end.

(** [{ ...this.options, ...this.bsonOptions }] *)
Definition merged_options (this : CommandOperation) : Document :=
  spread (spread [] (Some (options this))) (bsonOptions this).

(** [{ fullResult: !!this.fullResponse, ...this.options }] *)
Definition exec_options (this : CommandOperation) : Document :=
  spread
    [("fullResult",
      VBoolean (match fullResponse this with Some b => b | None => false end))]
    (Some (options this)).

Definition collation_error (srv : Server) (serverWireVersion : Z) : MongoError :=
  mkMongoError
    ("Server " ++ name srv ++ ", which reports wire version "
       ++ Number_toString serverWireVersion ++ ", does not support collation").

(** Lines 111-113: the read concern is written on the caller's document. *)
Definition attach_readConcern (this : CommandOperation) (cmd : Document)
  : Document :=
  match readConcern this with
  | Some rc =>
      if commandSupportsReadConcern cmd && negb (in_transaction this)
      then Object_assign cmd [("readConcern", VObject rc)]
      else cmd
  | None => cmd
  end.

(** Line 115: [options.collation && serverWireVersion < 5] *)
Definition collation_unsupported (this : CommandOperation) (srv : Server) : bool :=
  truthy (get (merged_options this) "collation")
  && (maxWireVersion srv <? SUPPORTS_WRITE_CONCERN_AND_COLLATION).

(** Lines 124-132: write concern and collation, from wire version 5 on. *)
Definition attach_writeConcern_collation (this : CommandOperation)
  (srv : Server) (cmd : Document) : Document :=
  if SUPPORTS_WRITE_CONCERN_AND_COLLATION <=? maxWireVersion srv then
    let cmd :=
      match writeConcern this with
      | Some wc =>
          if hasAspect this WRITE_OPERATION && negb (in_transaction this)
          then Object_assign cmd [("writeConcern", VObject wc)]
          else cmd
      | None => cmd
      end in
    if truthy (get (merged_options this) "collation")
       && TypeTag_eqb (typeof (get (merged_options this) "collation")) TObject
    then Object_assign cmd [("collation", get (merged_options this) "collation")]
    else cmd
  else cmd.

(** Lines 134-136 *)
Definition set_maxTimeMS (this : CommandOperation) (cmd : Document) : Document :=
  if TypeTag_eqb (typeof (get (merged_options this) "maxTimeMS")) TNumber
  then set_prop cmd "maxTimeMS" (get (merged_options this) "maxTimeMS")
  else cmd.

(** Lines 138-140 *)
Definition set_comment (this : CommandOperation) (cmd : Document) : Document :=
  if TypeTag_eqb (typeof (get (merged_options this) "comment")) TString
  then set_prop cmd "comment" (get (merged_options this) "comment")
  else cmd.

(** Lines 142-144 *)
Definition debug_trace (this : CommandOperation) (cmd : Document) : list Event :=
  match logger this with
  | Some l => if isDebug l then [LoggerDebug cmd (ns this)] else []
  | None => []
  end.

(** Lines 146-153.  The first component is the caller's document, the second
    the value of the local variable [cmd]: [cmd.explain = true] writes on the
    caller's document, [cmd = decorateWithExplain(...)] only rebinds the
    variable. *)
Definition apply_explain (this : CommandOperation) (srv : Server)
  (cmd : Document) : Document * Document :=
  match (if hasAspect this EXPLAINABLE then explain this else None) with
  | Some e =>
      if (maxWireVersion srv <? 6) && truthy (get cmd "aggregate") then
        let cmd := set_prop cmd "explain" (VBoolean true) in
        (cmd, cmd)
      else
        (cmd, decorateWithExplain cmd e)
  | None => (cmd, cmd)
  end.

(** [executeCommand(server, cmd, callback)] *)
Definition executeCommand (this : CommandOperation) (srv : Server)
  (cmd : Document) : Outcome :=
  let this := with_server this srv in
  let cmd := attach_readConcern this cmd in
  if collation_unsupported this srv then
    mkOutcome this cmd
      [CallbackError (collation_error srv (maxWireVersion srv))]
  else
    let cmd := attach_writeConcern_collation this srv cmd in
    let cmd := set_maxTimeMS this cmd in
    let cmd := set_comment this cmd in
    let trace := debug_trace this cmd in
    let (callerDoc, cmd) := apply_explain this srv cmd in
    mkOutcome this callerDoc
      (trace ++ [ServerCommand (namespace_toString (ns this)) cmd
                   (exec_options this)]).

(** *** The pipeline as a list of field writes

    A second reading of lines 111-153, used to reason about the caller's
    document: the property writes a call performs on it, in order.  The two
    tests made on the document itself are passed as booleans. *)

Definition write_all (ws : list (string * Value)) (d : Document) : Document :=
  fold_left (fun acc kv => set_prop acc (fst kv) (snd kv)) ws d.

Definition decoration_keys : list string :=
  ["readConcern"; "writeConcern"; "collation"; "maxTimeMS"; "comment";
   "explain"].

Definition readConcern_writes (this : CommandOperation) (supported : bool)
  : list (string * Value) :=
  match readConcern this with
  | Some rc =>
      if supported && negb (in_transaction this)
      then [("readConcern", VObject rc)] else []
  | None => []
  end.

Definition writeConcern_writes (this : CommandOperation)
  : list (string * Value) :=
  match writeConcern this with
  | Some wc =>
      if hasAspect this WRITE_OPERATION && negb (in_transaction this)
      then [("writeConcern", VObject wc)] else []
  | None => []
  end.

Definition collation_writes (this : CommandOperation) : list (string * Value) :=
  if truthy (get (merged_options this) "collation")
     && TypeTag_eqb (typeof (get (merged_options this) "collation")) TObject
  then [("collation", get (merged_options this) "collation")] else [].

Definition maxTimeMS_writes (this : CommandOperation) : list (string * Value) :=
  if TypeTag_eqb (typeof (get (merged_options this) "maxTimeMS")) TNumber
  then [("maxTimeMS", get (merged_options this) "maxTimeMS")] else [].

Definition comment_writes (this : CommandOperation) : list (string * Value) :=
  if TypeTag_eqb (typeof (get (merged_options this) "comment")) TString
  then [("comment", get (merged_options this) "comment")] else [].

(** Whether the explain step takes the legacy branch of line 147. *)
Definition legacy_explain (this : CommandOperation) (srv : Server)
  (aggregate : bool) : bool :=
  isSome (if hasAspect this EXPLAINABLE then explain this else None)
  && ((maxWireVersion srv <? 6) && aggregate).

Definition explain_writes (this : CommandOperation) (srv : Server)
  (aggregate : bool) : list (string * Value) :=
  if legacy_explain this srv aggregate then [("explain", VBoolean true)] else [].

Definition pipeline_writes (this : CommandOperation) (srv : Server)
  (supported aggregate : bool) : list (string * Value) :=
  (readConcern_writes this supported
   ++ (if collation_unsupported this srv then []
       else (if SUPPORTS_WRITE_CONCERN_AND_COLLATION <=? maxWireVersion srv
             then writeConcern_writes this ++ collation_writes this
             else [])
            ++ maxTimeMS_writes this
            ++ comment_writes this
            ++ explain_writes this srv aggregate))%list.

(** *** A claim as the specification words it

    The explain rule read for every call of an explainable operation with a
    directive: the boolean flag for an aggregate below wire version 6, the
    explain form of the command handed to the transport otherwise. *)
Definition explain_rule_as_stated (this : CommandOperation) (srv : Server)
  (cmd : Document) : Prop :=
  forall e,
    hasAspect this EXPLAINABLE = true ->
    explain this = Some e ->
    (maxWireVersion srv < 6 /\ truthy (get cmd "aggregate") = true ->
       lookup (callerCmd (executeCommand this srv cmd)) "explain"
       = Some (VBoolean true))
    /\ (~ (maxWireVersion srv < 6 /\ truthy (get cmd "aggregate") = true) ->
        exists n o,
          sentCommands (events (executeCommand this srv cmd))
          = [(n, decorateWithExplain
                   (callerCmd (executeCommand this srv cmd)) e, o)]).

End Operation.

(* ===================================================================== *)
(** ** A concrete set of collaborators *)
(* ===================================================================== *)

(** One implementation of the imported interface, used to run the operation
    on concrete inputs. *)
Module Sample.

Definition render (v : Value) : string :=
  match v with
  | VString s => s
  | VNumber n => Number_toString n
  | _ => ""
  end.

Definition verbs_with_readConcern : list string :=
  ["aggregate"; "count"; "distinct"; "find"; "geoNear"].

Definition bson_keys : list string :=
  ["raw"; "promoteLongs"; "promoteValues"; "promoteBuffers"; "ignoreUndefined"].

Definition pick (keys : list string) (d : Document) : Document :=
  filter (fun kv => existsb (String.eqb (fst kv)) keys) d.

#[export] Instance imports : Imports := {|
  maxWireVersion := description_maxWireVersion;
  decorateWithExplain := fun cmd e =>
    if truthy (get cmd "explain") then cmd
    else [("explain", VObject cmd); ("verbosity", VString (verbosity e))];
  namespace_toString := fun n => render (db n) ++ "." ++ render (collection n);
  commandSupportsReadConcern := fun cmd =>
    existsb (fun verb => truthy (get cmd verb)) verbs_with_readConcern;
  ReadConcern_fromOptions := fun o =>
    match get_opt o "readConcern" with
    | VObject d => Some d
    | VString s => Some [("level", VString s)]
    | _ => None
    end;
  WriteConcern_fromOptions := fun o =>
    match get_opt o "writeConcern" with
    | VObject d => Some d
    | _ => if is_undefined (get_opt o "w") then None
           else Some [("w", get_opt o "w")]
    end;
  Explain_fromOptions := fun o =>
    match get_opt o "explain" with
    | VUndefined => Returned None
    | VBoolean true => Returned (Some (mkExplain "allPlansExecution"))
    | VBoolean false => Returned (Some (mkExplain "queryPlanner"))
    | VString s => Returned (Some (mkExplain s))
    | _ => Thrown (mkMongoError "explain must be a verbosity or a boolean")
    end;
  resolveBSONOptions := fun o =>
    match o with Some d => Some (pick bson_keys d) | None => None end
|}.

(** An explainable write operation (for instance an update) and a plain one. *)
Definition explainable_write : list Aspect := [WRITE_OPERATION; EXPLAINABLE].
Definition plain_write : list Aspect := [WRITE_OPERATION].

Definition legacy_server : Server := mkServer "db1.example.com:27017" 4.
Definition server_3_4 : Server := mkServer "db2.example.com:27017" 5.
Definition server_3_6 : Server := mkServer "db3.example.com:27017" 6.

Definition collation_en : Value := VObject [("locale", VString "en")].

Definition aggregate_cmd : Document :=
  [("aggregate", VString "orders"); ("pipeline", VArray []); ("cursor", VObject [])].

Definition find_cmd : Document :=
  [("find", VString "orders"); ("filter", VObject [])].

Definition update_cmd : Document :=
  [("update", VString "orders"); ("updates", VArray [])].

Definition parent_db : OperationParent :=
  mkOperationParent (mkMongoDBNamespace (VString "shop") (VString "orders")) None.

(** An operation in the given state, with no BSON options, no server and
    no logger attached, targeting [admin.$cmd]. *)
Definition operation_with (asp : list Aspect) (opts : Document)
  (rc : option ReadConcern) (wc : option WriteConcern) (e : option Explain)
  (sess : option ClientSession) : CommandOperation :=
  mkCommandOperation asp opts None sess None
    (mkMongoDBNamespace (VString "admin") (VString "$cmd"))
    rc wc e (Some false) None.

Definition majority : ReadConcern := [("level", VString "majority")].
Definition w1 : WriteConcern := [("w", VNumber 1)].

Definition directive : Explain := mkExplain "allPlansExecution".

Definition no_session : option ClientSession := None.
Definition in_txn : option ClientSession := Some (mkClientSession true).

(** A write with a collation, and the same with both concerns set. *)
Definition op_collation : CommandOperation :=
  operation_with plain_write [("collation", collation_en)] None None None
    no_session.

Definition op_concerns_collation : CommandOperation :=
  operation_with plain_write [("collation", collation_en)]
    (Some majority) (Some w1) None no_session.

(** A write with both concerns set, outside and inside a transaction. *)
Definition op_concerns : CommandOperation :=
  operation_with plain_write [] (Some majority) (Some w1) None no_session.

Definition op_concerns_in_txn : CommandOperation :=
  operation_with plain_write [] (Some majority) (Some w1) None in_txn.

(** An explained operation, without and with a collation. *)
Definition op_explain : CommandOperation :=
  operation_with explainable_write [("explain", VBoolean true)]
    None None (Some directive) no_session.

Definition op_explain_collation : CommandOperation :=
  operation_with explainable_write
    [("collation", collation_en); ("explain", VBoolean true)]
    None None (Some directive) no_session.

(** An operation whose options carry their own [fullResult]. *)
Definition op_fullResult : CommandOperation :=
  operation_with plain_write [("fullResult", VNumber 1)] None None None
    no_session.

(** A write with a time limit, a comment and a collation given as a bare
    locale string, and one whose comment is a document. *)
Definition op_limits : CommandOperation :=
  operation_with plain_write
    [("maxTimeMS", VNumber 0); ("comment", VString "nightly");
     ("collation", VString "en")]
    (Some majority) None None no_session.

Definition op_document_comment : CommandOperation :=
  operation_with plain_write
    [("maxTimeMS", VString "5"); ("comment", VObject [("by", VString "job")])]
    None None None no_session.

(** An explained operation with a debug logger attached. *)
Definition op_explain_logged : CommandOperation :=
  mkCommandOperation explainable_write [("explain", VBoolean true)] None
    no_session None
    (mkMongoDBNamespace (VString "admin") (VString "$cmd"))
    None None (Some directive) (Some false) (Some (mkLogger true)).

Definition server_4_4 : Server := mkServer "db4.example.com:27017" 9.

End Sample.


(* ===================================================================== *)
(** ** Properties of objects *)
(* ===================================================================== *)

Section ObjectLemmas.

Lemma lookup_set_prop_eq (d : Document) (k : string) (v : Value) :
  lookup (set_prop d k v) k = Some v.
Proof.
  induction d as [|[k0 v0] rest IH]; simpl.
  - now rewrite String.eqb_refl.
  - destruct (k0 =? k)%string eqn:E; simpl; rewrite E; auto.
Qed.

Lemma lookup_set_prop_ne (d : Document) (k k' : string) (v : Value) :
  (k =? k')%string = false ->
  lookup (set_prop d k v) k' = lookup d k'.
Proof.
  intros Hne. induction d as [|[k0 v0] rest IH]; simpl.
  - now rewrite Hne.
  - destruct (k0 =? k)%string eqn:E; simpl.
    + apply String.eqb_eq in E. subst k0. now rewrite Hne.
    + now rewrite IH.
Qed.

Lemma get_set_prop_ne (d : Document) (k k' : string) (v : Value) :
  (k =? k')%string = false ->
  get (set_prop d k v) k' = get d k'.
Proof. intros H. unfold get. now rewrite lookup_set_prop_ne. Qed.

(** Writing the value a property already has changes nothing. *)
Lemma set_prop_absorb (d : Document) (k : string) (v : Value) :
  lookup d k = Some v -> set_prop d k v = d.
Proof.
  induction d as [|[k0 v0] rest IH]; simpl; intros H.
  - discriminate.
  - destruct (k0 =? k)%string.
    + now inversion H.
    + now rewrite IH.
Qed.

Lemma set_prop_twice (d : Document) (k : string) (v : Value) :
  set_prop (set_prop d k v) k v = set_prop d k v.
Proof. apply set_prop_absorb, lookup_set_prop_eq. Qed.

Lemma Object_assign_single (d : Document) (k : string) (v : Value) :
  Object_assign d [(k, v)] = set_prop d k v.
Proof.
  unfold Object_assign, get. simpl. now rewrite String.eqb_refl.
Qed.

Lemma lookup_None_not_key (s : Document) (k : string) :
  lookup s k = None -> ~ In k (map fst s).
Proof.
  induction s as [|[k0 v0] rest IH]; simpl; intros H.
  - tauto.
  - destruct (k0 =? k)%string eqn:E; [discriminate|].
    intros [->|Hin]; [now rewrite String.eqb_refl in E | now apply IH].
Qed.

Lemma lookup_Some_key (s : Document) (k : string) (v : Value) :
  lookup s k = Some v -> In k (map fst s).
Proof.
  induction s as [|[k0 v0] rest IH]; simpl; intros H.
  - discriminate.
  - destruct (k0 =? k)%string eqn:E.
    + left. now apply String.eqb_eq.
    + right. now apply IH.
Qed.

Lemma lookup_fold_set (f : string -> Value) (ks : list string) (t : Document)
  (k : string) :
  lookup (fold_left (fun acc k' => set_prop acc k' (f k')) ks t) k
  = if in_dec string_dec k ks then Some (f k) else lookup t k.
Proof.
  revert t. induction ks as [|k0 ks IH]; intros t; simpl.
  - reflexivity.
  - rewrite IH. destruct (in_dec string_dec k ks) as [Hin|Hnin].
    + destruct (string_dec k0 k); reflexivity.
    + destruct (string_dec k0 k) as [->|Hne].
      * apply lookup_set_prop_eq.
      * apply lookup_set_prop_ne. now apply String.eqb_neq.
Qed.

(** [Object.assign]: the source's own properties win, the others stay. *)
Lemma lookup_Object_assign (t s : Document) (k : string) :
  lookup (Object_assign t s) k
  = match lookup s k with Some v => Some v | None => lookup t k end.
Proof.
  unfold Object_assign. rewrite lookup_fold_set.
  destruct (lookup s k) as [v|] eqn:E.
  - destruct (in_dec string_dec k (map fst s)) as [_|Hn].
    + unfold get. now rewrite E.
    + exfalso. apply Hn. eapply lookup_Some_key; eauto.
  - destruct (in_dec string_dec k (map fst s)) as [Hin|_]; [|reflexivity].
    exfalso. revert Hin. now apply lookup_None_not_key.
Qed.

End ObjectLemmas.

(* ===================================================================== *)
(** ** Properties of the steps of [executeCommand] *)
(* ===================================================================== *)

Section StepLemmas.
Context {imports : Imports}.

Lemma merged_options_with_server (this : CommandOperation) (srv : Server) :
  merged_options (with_server this srv) = merged_options this.
Proof. reflexivity. Qed.

(** When the BSON options carry no [k], the merged bag reads [k] from
    [this.options]. *)
Lemma merged_options_get (this : CommandOperation) (k : string) :
  match bsonOptions this with Some b => lookup b k | None => None end = None ->
  get (merged_options this) k = get (options this) k.
Proof.
  unfold merged_options, spread, get. intros Hb.
  destruct (bsonOptions this) as [b|].
  - rewrite lookup_Object_assign, Hb, lookup_Object_assign. simpl.
    now destruct (lookup (options this) k).
  - rewrite lookup_Object_assign. simpl. now destruct (lookup (options this) k).
Qed.

Lemma attach_readConcern_frame (this : CommandOperation) (cmd : Document)
  (k : string) :
  ("readConcern" =? k)%string = false ->
  lookup (attach_readConcern this cmd) k = lookup cmd k.
Proof.
  intros Hk. unfold attach_readConcern.
  destruct (readConcern this) as [rc|]; [|reflexivity].
  destruct (commandSupportsReadConcern cmd && negb (in_transaction this));
    [|reflexivity].
  rewrite Object_assign_single. now apply lookup_set_prop_ne.
Qed.

Lemma attach_writeConcern_collation_frame (this : CommandOperation)
  (srv : Server) (cmd : Document) (k : string) :
  ("writeConcern" =? k)%string = false ->
  ("collation" =? k)%string = false ->
  lookup (attach_writeConcern_collation this srv cmd) k = lookup cmd k.
Proof.
  intros Hw Hc. unfold attach_writeConcern_collation.
  destruct (SUPPORTS_WRITE_CONCERN_AND_COLLATION <=? maxWireVersion srv);
    [|reflexivity].
  destruct (truthy _ && TypeTag_eqb _ _);
    [rewrite Object_assign_single, lookup_set_prop_ne by exact Hc|];
    (destruct (writeConcern this) as [wc|]; [|reflexivity]);
    (destruct (hasAspect this WRITE_OPERATION && negb (in_transaction this));
       [|reflexivity]);
    rewrite Object_assign_single; now apply lookup_set_prop_ne.
Qed.

Lemma set_maxTimeMS_frame (this : CommandOperation) (cmd : Document)
  (k : string) :
  ("maxTimeMS" =? k)%string = false ->
  lookup (set_maxTimeMS this cmd) k = lookup cmd k.
Proof.
  intros Hk. unfold set_maxTimeMS.
  destruct (TypeTag_eqb _ _); [now apply lookup_set_prop_ne | reflexivity].
Qed.

Lemma set_comment_frame (this : CommandOperation) (cmd : Document)
  (k : string) :
  ("comment" =? k)%string = false ->
  lookup (set_comment this cmd) k = lookup cmd k.
Proof.
  intros Hk. unfold set_comment.
  destruct (TypeTag_eqb _ _); [now apply lookup_set_prop_ne | reflexivity].
Qed.

Lemma apply_explain_frame (this : CommandOperation) (srv : Server)
  (cmd : Document) (k : string) :
  ("explain" =? k)%string = false ->
  lookup (fst (apply_explain this srv cmd)) k = lookup cmd k.
Proof.
  intros Hk. unfold apply_explain.
  destruct (if hasAspect this EXPLAINABLE then explain this else None) as [e|];
    [|reflexivity].
  destruct ((maxWireVersion srv <? 6) && truthy (get cmd "aggregate")); simpl;
    [now apply lookup_set_prop_ne | reflexivity].
Qed.

(** The caller's document after a call, step by step. *)
Lemma callerCmd_executeCommand (this : CommandOperation) (srv : Server)
  (cmd : Document) :
  callerCmd (executeCommand this srv cmd)
  = if collation_unsupported this srv then attach_readConcern this cmd
    else fst (apply_explain this srv
                (set_comment this
                   (set_maxTimeMS this
                      (attach_writeConcern_collation this srv
                         (attach_readConcern this cmd))))).
Proof.
  unfold executeCommand.
  change (collation_unsupported (with_server this srv) srv)
    with (collation_unsupported this srv).
  destruct (collation_unsupported this srv); [reflexivity|].
  match goal with |- context [apply_explain ?t ?s ?c] =>
    change (apply_explain t s c) with
      (apply_explain this srv
         (set_comment this (set_maxTimeMS this
            (attach_writeConcern_collation this srv
               (attach_readConcern this cmd)))));
    destruct (apply_explain this srv
         (set_comment this (set_maxTimeMS this
            (attach_writeConcern_collation this srv
               (attach_readConcern this cmd)))))
  end.
  reflexivity.
Qed.

(** The calls made during a call, step by step. *)
Lemma events_executeCommand (this : CommandOperation) (srv : Server)
  (cmd : Document) :
  events (executeCommand this srv cmd)
  = if collation_unsupported this srv
    then [CallbackError (collation_error srv (maxWireVersion srv))]
    else
      let decorated :=
        set_comment this
          (set_maxTimeMS this
             (attach_writeConcern_collation this srv
                (attach_readConcern this cmd))) in
      (debug_trace this decorated
         ++ [ServerCommand (namespace_toString (ns this))
               (snd (apply_explain this srv decorated))
               (exec_options this)])%list.
Proof.
  unfold executeCommand.
  change (collation_unsupported (with_server this srv) srv)
    with (collation_unsupported this srv).
  destruct (collation_unsupported this srv); [reflexivity|].
  cbv zeta.
  match goal with |- context [apply_explain ?t ?s ?c] =>
    change (apply_explain t s c) with
      (apply_explain this srv
         (set_comment this (set_maxTimeMS this
            (attach_writeConcern_collation this srv
               (attach_readConcern this cmd)))));
    destruct (apply_explain this srv
         (set_comment this (set_maxTimeMS this
            (attach_writeConcern_collation this srv
               (attach_readConcern this cmd)))))
  end.
  reflexivity.
Qed.

Lemma operation_executeCommand (this : CommandOperation) (srv : Server)
  (cmd : Document) :
  operation (executeCommand this srv cmd) = with_server this srv.
Proof.
  unfold executeCommand.
  destruct (collation_unsupported (with_server this srv) srv); [reflexivity|].
  destruct (apply_explain _ _ _). reflexivity.
Qed.

Lemma sentCommands_app (xs ys : list Event) :
  sentCommands (xs ++ ys) = (sentCommands xs ++ sentCommands ys)%list.
Proof.
  induction xs as [|[e|c n|n c o] xs IH]; simpl; auto. now rewrite IH.
Qed.

Lemma reportedErrors_app (xs ys : list Event) :
  reportedErrors (xs ++ ys) = (reportedErrors xs ++ reportedErrors ys)%list.
Proof.
  induction xs as [|[e|c n|n c o] xs IH]; simpl; auto. now rewrite IH.
Qed.

Lemma sentCommands_debug_trace (this : CommandOperation) (cmd : Document) :
  sentCommands (debug_trace this cmd) = []
  /\ reportedErrors (debug_trace this cmd) = [].
Proof.
  unfold debug_trace. destruct (logger this) as [l|]; [|now split].
  destruct (isDebug l); now split.
Qed.

End StepLemmas.

(* ===================================================================== *)
(** ** The claims about construction and execution *)
(* ===================================================================== *)

Section Claims.
Context {imports : Imports}.

Lemma collation_unsupported_true (this : CommandOperation) (srv : Server) :
  truthy (get (merged_options this) "collation") = true ->
  maxWireVersion srv < 5 ->
  collation_unsupported this srv = true.
Proof.
  intros Hc Hv. unfold collation_unsupported. rewrite Hc. simpl.
  apply Z.ltb_lt. exact Hv.
Qed.

Lemma collation_unsupported_false (this : CommandOperation) (srv : Server) :
  truthy (get (merged_options this) "collation") = false
  \/ 5 <= maxWireVersion srv ->
  collation_unsupported this srv = false.
Proof.
  intros [Hc|Hv]; unfold collation_unsupported.
  - now rewrite Hc.
  - apply andb_false_intro2. apply Z.ltb_ge. exact Hv.
Qed.

(** What the write-concern step leaves under the key [writeConcern]. *)
Lemma attach_writeConcern_collation_writeConcern (this : CommandOperation)
  (srv : Server) (cmd : Document) :
  lookup (attach_writeConcern_collation this srv cmd) "writeConcern"
  = match writeConcern this with
    | Some wc =>
        if (5 <=? maxWireVersion srv) && hasAspect this WRITE_OPERATION
           && negb (in_transaction this)
        then Some (VObject wc)
        else lookup cmd "writeConcern"
    | None => lookup cmd "writeConcern"
    end.
Proof.
  unfold attach_writeConcern_collation, SUPPORTS_WRITE_CONCERN_AND_COLLATION.
  destruct (5 <=? maxWireVersion srv); simpl.
  - destruct (truthy _ && TypeTag_eqb _ _);
      [rewrite Object_assign_single, lookup_set_prop_ne by reflexivity|];
      (destruct (writeConcern this) as [wc|]; [|reflexivity]);
      (destruct (hasAspect this WRITE_OPERATION && negb (in_transaction this));
         [|reflexivity]);
      rewrite Object_assign_single; apply lookup_set_prop_eq.
  - now destruct (writeConcern this).
Qed.

(** The local [cmd] handed to the transport is the caller's document or its
    explain form. *)
Lemma apply_explain_shape (this : CommandOperation) (srv : Server)
  (cmd : Document) :
  snd (apply_explain this srv cmd) = fst (apply_explain this srv cmd)
  \/ exists e, explain this = Some e
       /\ hasAspect this EXPLAINABLE = true
       /\ fst (apply_explain this srv cmd) = cmd
       /\ snd (apply_explain this srv cmd) = decorateWithExplain cmd e.
Proof.
  unfold apply_explain.
  destruct (hasAspect this EXPLAINABLE) eqn:Ha; [|now left].
  destruct (explain this) as [e|] eqn:He; [|now left].
  destruct ((maxWireVersion srv <? 6) && truthy (get cmd "aggregate"));
    [now left|].
  right. exists e. simpl. auto.
Qed.

(** A truthy [collation] in the bag line 107 builds: read from the merged
    bag, or from [this.options] when the BSON options have no such key. *)
Lemma collation_supplied (this : CommandOperation) :
  truthy (get (merged_options this) "collation") = true
  \/ (truthy (get (options this) "collation") = true
      /\ match bsonOptions this with
         | Some b => lookup b "collation"
         | None => None
         end = None) ->
  truthy (get (merged_options this) "collation") = true.
Proof.
  intros [H|[H Hb]]; [exact H|]. now rewrite merged_options_get.
Qed.

(** C1.  When the options bag holds a truthy [collation] (in the merged bag
    [executeCommand] reads, or in [this.options] with BSON options that have
    no such key) and the server reports a wire version below 5, the only
    thing the call does is to invoke the callback with the error
    "Server <name>, which reports wire version <v>, does not support
    collation"; the transport's [command] is not invoked. *)
Theorem collation_gate_fails_without_send (this : CommandOperation)
  (srv : Server) (cmd : Document) :
  truthy (get (merged_options this) "collation") = true
  \/ (truthy (get (options this) "collation") = true
      /\ match bsonOptions this with
         | Some b => lookup b "collation"
         | None => None
         end = None) ->
  maxWireVersion srv < 5 ->
  events (executeCommand this srv cmd)
  = [CallbackError
       (mkMongoError
          ("Server " ++ name srv ++ ", which reports wire version "
             ++ Number_toString (maxWireVersion srv)
             ++ ", does not support collation")%string)]
  /\ sentCommands (events (executeCommand this srv cmd)) = [].
Proof.
  intros Hc Hv. apply collation_supplied in Hc.
  rewrite events_executeCommand.
  rewrite (collation_unsupported_true this srv Hc Hv). split; reflexivity.
Qed.

(** C10.  When a read concern is set, the verb supports it, no transaction is
    active, a truthy collation is supplied and the wire version is below 5,
    the caller's document has received the [readConcern] field by the time the
    collation error is reported, and nothing is sent. *)
Theorem collation_failure_keeps_readConcern_write (this : CommandOperation)
  (srv : Server) (cmd : Document) (rc : ReadConcern) :
  readConcern this = Some rc ->
  commandSupportsReadConcern cmd = true ->
  in_transaction this = false ->
  truthy (get (merged_options this) "collation") = true
  \/ (truthy (get (options this) "collation") = true
      /\ match bsonOptions this with
         | Some b => lookup b "collation"
         | None => None
         end = None) ->
  maxWireVersion srv < 5 ->
  callerCmd (executeCommand this srv cmd)
  = set_prop cmd "readConcern" (VObject rc)
  /\ lookup (callerCmd (executeCommand this srv cmd)) "readConcern"
     = Some (VObject rc)
  /\ events (executeCommand this srv cmd)
     = [CallbackError (collation_error srv (maxWireVersion srv))]
  /\ sentCommands (events (executeCommand this srv cmd)) = [].
Proof.
  intros Hrc Hs Ht Hc Hv. apply collation_supplied in Hc.
  rewrite callerCmd_executeCommand, events_executeCommand.
  rewrite (collation_unsupported_true this srv Hc Hv).
  unfold attach_readConcern. rewrite Hrc, Hs, Ht. simpl.
  rewrite Object_assign_single.
  repeat split. apply lookup_set_prop_eq.
Qed.

(** C4.  [canRetryWrite]: for an explainable operation it is true exactly
    when [explain] is undefined, and false when a directive is set; for any
    other operation it is true. *)
Theorem canRetryWrite_spec (this : CommandOperation) :
  (hasAspect this EXPLAINABLE = true ->
     (canRetryWrite this = true <-> explain this = None)
     /\ (explain this <> None -> canRetryWrite this = false))
  /\ (hasAspect this EXPLAINABLE = false -> canRetryWrite this = true).
Proof.
  unfold canRetryWrite. split; intros Ha; rewrite Ha; [|reflexivity].
  destruct (explain this) as [e|]; simpl; split.
  - split; intros H; discriminate.
  - reflexivity.
  - split; reflexivity.
  - intros H. now elim H.
Qed.

(** C6.  While the session's transaction is active, a call writes neither
    [readConcern] nor [writeConcern] on the command document: both keys are
    left as the caller passed them (absent when they were absent), whatever
    the concerns, the wire version and the aspects; and what is sent is that
    document or its explain form. *)
Theorem transaction_suppresses_concerns (this : CommandOperation)
  (srv : Server) (cmd : Document) (sess : ClientSession) :
  session this = Some sess ->
  inTransaction sess = true ->
  lookup (callerCmd (executeCommand this srv cmd)) "readConcern"
  = lookup cmd "readConcern"
  /\ lookup (callerCmd (executeCommand this srv cmd)) "writeConcern"
     = lookup cmd "writeConcern"
  /\ (forall n c o,
        In (n, c, o) (sentCommands (events (executeCommand this srv cmd))) ->
        c = callerCmd (executeCommand this srv cmd)
        \/ exists e, explain this = Some e
             /\ c = decorateWithExplain
                      (callerCmd (executeCommand this srv cmd)) e).
Proof.
  intros Hs Ht.
  assert (Hin : in_transaction this = true)
    by (unfold in_transaction; now rewrite Hs).
  assert (Hrc : attach_readConcern this cmd = cmd).
  { unfold attach_readConcern. rewrite Hin, andb_false_r.
    now destruct (readConcern this). }
  rewrite callerCmd_executeCommand, events_executeCommand, Hrc.
  destruct (collation_unsupported this srv).
  - repeat split. simpl. tauto.
  - split; [|split].
    + rewrite apply_explain_frame, set_comment_frame, set_maxTimeMS_frame,
        attach_writeConcern_collation_frame by reflexivity. reflexivity.
    + rewrite apply_explain_frame, set_comment_frame, set_maxTimeMS_frame
        by reflexivity.
      rewrite attach_writeConcern_collation_writeConcern, Hin.
      rewrite andb_false_r. now destruct (writeConcern this).
    + intros n c o. cbv zeta. rewrite sentCommands_app.
      rewrite (proj1 (sentCommands_debug_trace this _)). simpl.
      intros [Heq|[]]. inversion Heq; subst; clear Heq.
      destruct (apply_explain_shape this srv
                  (set_comment this (set_maxTimeMS this
                     (attach_writeConcern_collation this srv cmd))))
        as [Hsame|(e & He & _ & Hfst & Hsnd)].
      * now left.
      * right. exists e. split; [exact He|]. now rewrite Hfst.
Qed.

(** C7.  The write-concern step writes [writeConcern] exactly when the wire
    version is at least 5, a write concern is set, the operation has the
    WRITE_OPERATION aspect and no transaction is active; in every other case
    the key is left as the caller passed it.  Below wire version 5, with a
    write concern set and no truthy collation, nothing is reported through
    the callback and the command is sent all the same. *)
Theorem writeConcern_attached_exactly_when (this : CommandOperation)
  (srv : Server) (cmd : Document) :
  (forall wc,
      5 <= maxWireVersion srv ->
      writeConcern this = Some wc ->
      hasAspect this WRITE_OPERATION = true ->
      in_transaction this = false ->
      lookup (callerCmd (executeCommand this srv cmd)) "writeConcern"
      = Some (VObject wc))
  /\ (maxWireVersion srv < 5 \/ writeConcern this = None
      \/ hasAspect this WRITE_OPERATION = false
      \/ in_transaction this = true ->
      lookup (callerCmd (executeCommand this srv cmd)) "writeConcern"
      = lookup cmd "writeConcern")
  /\ (maxWireVersion srv < 5 ->
      writeConcern this <> None ->
      truthy (get (merged_options this) "collation") = false ->
      reportedErrors (events (executeCommand this srv cmd)) = []
      /\ exists c,
           sentCommands (events (executeCommand this srv cmd))
           = [(namespace_toString (ns this), c, exec_options this)]
           /\ (c = callerCmd (executeCommand this srv cmd)
               \/ exists e, explain this = Some e
                    /\ c = decorateWithExplain
                             (callerCmd (executeCommand this srv cmd)) e)).
Proof.
  assert (Hkey : forall c,
    lookup (fst (apply_explain this srv
              (set_comment this (set_maxTimeMS this
                 (attach_writeConcern_collation this srv c))))) "writeConcern"
    = match writeConcern this with
      | Some wc =>
          if (5 <=? maxWireVersion srv) && hasAspect this WRITE_OPERATION
             && negb (in_transaction this)
          then Some (VObject wc) else lookup c "writeConcern"
      | None => lookup c "writeConcern"
      end).
  { intros c.
    rewrite apply_explain_frame, set_comment_frame, set_maxTimeMS_frame
      by reflexivity.
    apply attach_writeConcern_collation_writeConcern. }
  split; [|split].
  - intros wc Hv Hwc Ha Ht.
    rewrite callerCmd_executeCommand.
    rewrite (collation_unsupported_false this srv (or_intror Hv)).
    rewrite Hkey, Hwc, Ha, Ht.
    apply Z.leb_le in Hv. now rewrite Hv.
  - intros Hcase. rewrite callerCmd_executeCommand.
    destruct (collation_unsupported this srv).
    + now apply attach_readConcern_frame.
    + rewrite Hkey, attach_readConcern_frame by reflexivity.
      destruct (writeConcern this) as [wc|]; [|reflexivity].
      destruct Hcase as [Hv|[Hn|[Ha|Ht]]].
      * apply Z.leb_gt in Hv. now rewrite Hv.
      * discriminate.
      * now rewrite Ha, andb_false_r.
      * now rewrite Ht, andb_false_r.
  - intros Hv Hwc Hc.
    rewrite callerCmd_executeCommand, events_executeCommand.
    rewrite (collation_unsupported_false this srv (or_introl Hc)).
    cbv zeta. rewrite reportedErrors_app, sentCommands_app.
    destruct (sentCommands_debug_trace this
                (set_comment this (set_maxTimeMS this
                   (attach_writeConcern_collation this srv
                      (attach_readConcern this cmd))))) as [-> ->].
    split; [reflexivity|]. simpl. eexists. split; [reflexivity|].
    destruct (apply_explain_shape this srv
                (set_comment this (set_maxTimeMS this
                   (attach_writeConcern_collation this srv
                      (attach_readConcern this cmd)))))
      as [Hsame|(e & He & _ & Hfst & Hsnd)].
    + now left.
    + right. exists e. split; [exact He|]. now rewrite Hfst.
Qed.

(** What reaches the transport during a call. *)
Lemma sentCommands_executeCommand (this : CommandOperation) (srv : Server)
  (cmd : Document) :
  sentCommands (events (executeCommand this srv cmd))
  = if collation_unsupported this srv then []
    else [(namespace_toString (ns this),
           snd (apply_explain this srv
                  (set_comment this (set_maxTimeMS this
                     (attach_writeConcern_collation this srv
                        (attach_readConcern this cmd))))),
           exec_options this)].
Proof.
  rewrite events_executeCommand.
  destruct (collation_unsupported this srv); [reflexivity|].
  cbv zeta. rewrite sentCommands_app.
  now rewrite (proj1 (sentCommands_debug_trace this _)).
Qed.

Lemma new_CommandOperation_fields (asp : list Aspect)
  (parent : option OperationParent) (opts : option Document)
  (op : CommandOperation) :
  new_CommandOperation asp parent opts = Returned op ->
  aspects op = asp
  /\ options op = OperationBase_options opts
  /\ ns op = resolve_ns parent opts
  /\ fullResponse op = Some (resolve_fullResponse opts)
  /\ readConcern op = ReadConcern_fromOptions opts
  /\ writeConcern op = WriteConcern_fromOptions opts.
Proof.
  unfold new_CommandOperation, hasAspect. cbn [aspects].
  destruct (declares asp EXPLAINABLE).
  - destruct (Explain_fromOptions opts) as [e|err]; simpl; [|discriminate].
    intros H. inversion H; subst; clear H. cbn. tauto.
  - destruct (negb (is_undefined (get_opt opts "explain"))); [discriminate|].
    intros H. inversion H; subst; clear H. cbn. tauto.
Qed.

(** C9.  The execution options are [{ fullResult: !!this.fullResponse,
    ...this.options }]: a [fullResult] key of [this.options] overrides the
    derived flag, and the flag equals the boolean [fullResponse] when
    [this.options] has no such key.  [fullResponse] is the boolean
    [options.fullResponse] given at construction, [false] otherwise, and
    [this.options] has the properties of the constructor's options.  Every
    call of [executeCommand] that passes the collation check hands exactly
    one command to the transport, with these options; no call sends any
    other options. *)
Theorem fullResult_overridden_by_options (this : CommandOperation) :
  (forall v, lookup (options this) "fullResult" = Some v ->
             lookup (exec_options this) "fullResult" = Some v)
  /\ (lookup (options this) "fullResult" = None ->
      lookup (exec_options this) "fullResult"
      = Some (VBoolean
                (match fullResponse this with Some b => b | None => false end)))
  /\ (forall srv cmd,
        truthy (get (merged_options this) "collation") = false
        \/ 5 <= maxWireVersion srv ->
        exists c o,
          sentCommands (events (executeCommand this srv cmd))
          = [(namespace_toString (ns this), c, o)]
          /\ o = exec_options this
          /\ lookup o "fullResult"
             = match lookup (options this) "fullResult" with
               | Some v => Some v
               | None =>
                   Some (VBoolean
                           (match fullResponse this with
                            | Some b => b
                            | None => false
                            end))
               end)
  /\ (forall srv cmd n c o,
        In (n, c, o) (sentCommands (events (executeCommand this srv cmd))) ->
        o = exec_options this)
  /\ (forall asp parent opts,
        new_CommandOperation asp parent opts = Returned this ->
        (forall k, lookup (options this) k
                   = match opts with Some o => lookup o k | None => None end)
        /\ (forall b, get_opt opts "fullResponse" = VBoolean b ->
                      fullResponse this = Some b)
        /\ (typeof (get_opt opts "fullResponse") <> TBoolean ->
            fullResponse this = Some false)).
Proof.
  split; [|split; [|split; [|split]]].
  - intros v Hv. unfold exec_options, spread.
    now rewrite lookup_Object_assign, Hv.
  - intros Hn. unfold exec_options, spread.
    now rewrite lookup_Object_assign, Hn.
  - intros srv cmd Hgate. rewrite sentCommands_executeCommand.
    rewrite (collation_unsupported_false this srv Hgate).
    eexists. eexists. split; [reflexivity|]. split; [reflexivity|].
    unfold exec_options, spread. rewrite lookup_Object_assign.
    now destruct (lookup (options this) "fullResult").
  - intros srv cmd n c o. rewrite sentCommands_executeCommand.
    destruct (collation_unsupported this srv); simpl; [tauto|].
    intros [Heq|[]]. now inversion Heq.
  - intros asp parent opts Hnew.
    destruct (new_CommandOperation_fields _ _ _ _ Hnew)
      as (_ & Hopts & _ & Hfull & _).
    rewrite Hopts, Hfull. unfold OperationBase_options. split; [|split].
    + intros k. destruct opts as [o|]; simpl; [|reflexivity].
      rewrite lookup_Object_assign. now destruct (lookup o k).
    + intros b Hb. destruct opts as [o|]; simpl in *; [|discriminate].
      now rewrite Hb.
    + intros Hty. destruct opts as [o|]; simpl in *; [|reflexivity].
      destruct (get o "fullResponse"); try reflexivity. now elim Hty.
Qed.

(** C5.  The namespace of a new operation: a truthy [dbName || authdb]
    override gives that database whatever the parent ([dbName] first); without
    an override a parent gives its own database; with neither the database is
    [admin].  The collection is always [$cmd].  [executeCommand] leaves the
    namespace as construction set it, and it is the namespace the transport
    is called with. *)
Theorem namespace_precedence (asp : list Aspect)
  (parent : option OperationParent) (opts : option Document)
  (op : CommandOperation) :
  new_CommandOperation asp parent opts = Returned op ->
  (truthy (dbNameOverride opts) = true ->
     ns op = mkMongoDBNamespace (dbNameOverride opts) (VString "$cmd"))
  /\ (truthy (get_opt opts "dbName") = true ->
      db (ns op) = get_opt opts "dbName")
  /\ (truthy (get_opt opts "dbName") = false ->
      truthy (get_opt opts "authdb") = true ->
      db (ns op) = get_opt opts "authdb")
  /\ (forall p, truthy (dbNameOverride opts) = false ->
      parent = Some p ->
      ns op = mkMongoDBNamespace (db (s_namespace p)) (VString "$cmd"))
  /\ (truthy (dbNameOverride opts) = false ->
      parent = None ->
      ns op = mkMongoDBNamespace (VString "admin") (VString "$cmd"))
  /\ collection (ns op) = VString "$cmd"
  /\ (forall srv cmd,
        ns (operation (executeCommand op srv cmd)) = ns op
        /\ forall n c o,
             In (n, c, o) (sentCommands (events (executeCommand op srv cmd))) ->
             n = namespace_toString (ns op)).
Proof.
  intros Hnew.
  destruct (new_CommandOperation_fields _ _ _ _ Hnew) as (_ & _ & Hns & _).
  rewrite Hns. unfold resolve_ns, dbNameOverride, or_else.
  repeat split.
  - intros H. now rewrite H.
  - intros H. now rewrite H, H.
  - intros Hd Ha. now rewrite Hd, Ha.
  - intros p H -> . now rewrite H.
  - intros H -> . now rewrite H.
  - destruct (truthy (if truthy (get_opt opts "dbName") then _ else _));
      [reflexivity|]. now destruct parent.
  - rewrite operation_executeCommand. cbn. exact Hns.
  - intros n c o. rewrite sentCommands_executeCommand.
    destruct (collation_unsupported op srv); simpl; [tauto|].
    intros [Heq|[]]. inversion Heq. now rewrite Hns.
Qed.

(** An operation without a directive leaves [explain] alone and sends the
    caller's document itself. *)
Lemma no_directive_no_explain (this : CommandOperation) (srv : Server)
  (cmd : Document) :
  explain this = None ->
  lookup (callerCmd (executeCommand this srv cmd)) "explain"
  = lookup cmd "explain"
  /\ forall n c o,
       In (n, c, o) (sentCommands (events (executeCommand this srv cmd))) ->
       c = callerCmd (executeCommand this srv cmd).
Proof.
  intros He.
  assert (Hex : forall c, apply_explain this srv c = (c, c)).
  { intros c. unfold apply_explain. rewrite He.
    now destruct (hasAspect this EXPLAINABLE). }
  rewrite callerCmd_executeCommand, sentCommands_executeCommand.
  destruct (collation_unsupported this srv).
  - split; [now apply attach_readConcern_frame | simpl; tauto].
  - rewrite Hex. simpl. split.
    + rewrite set_comment_frame, set_maxTimeMS_frame,
        attach_writeConcern_collation_frame, attach_readConcern_frame
        by reflexivity. reflexivity.
    + intros n c o [Heq|[]]. now inversion Heq.
Qed.

(** C3.  For a kind without the EXPLAINABLE aspect, the constructor throws
    "explain is not supported on this command" whenever [options.explain] is
    not [undefined]; construction performs no call, so nothing has been sent.
    For an explainable kind and options without [explain], for which
    [Explain.fromOptions] yields no directive, construction succeeds with no
    directive, and every later [executeCommand] leaves the [explain] key of
    the command alone and sends the caller's document unwrapped. *)
Theorem explain_gate_at_construction (asp : list Aspect)
  (parent : option OperationParent) (opts : option Document) :
  (declares asp EXPLAINABLE = false ->
   is_undefined (get_opt opts "explain") = false ->
   new_CommandOperation asp parent opts
   = Thrown (mkMongoError "explain is not supported on this command"))
  /\ (declares asp EXPLAINABLE = true ->
      is_undefined (get_opt opts "explain") = true ->
      (forall o, is_undefined (get_opt o "explain") = true ->
                 Explain_fromOptions o = Returned None) ->
      exists op,
        new_CommandOperation asp parent opts = Returned op
        /\ explain op = None
        /\ forall srv cmd,
             lookup (callerCmd (executeCommand op srv cmd)) "explain"
             = lookup cmd "explain"
             /\ forall n c o,
                  In (n, c, o)
                     (sentCommands (events (executeCommand op srv cmd))) ->
                  c = callerCmd (executeCommand op srv cmd)).
Proof.
  split.
  - intros Ha He. unfold new_CommandOperation, hasAspect. cbn [aspects].
    now rewrite Ha, He.
  - intros Ha He Hfrom. unfold new_CommandOperation, hasAspect.
    cbn [aspects]. rewrite Ha, (Hfrom opts He). simpl.
    eexists. split; [reflexivity|]. split; [reflexivity|].
    intros srv cmd. now apply no_directive_no_explain.
Qed.

(** The earlier steps never touch the key the explain step tests. *)
Lemma decorated_get_aggregate (this : CommandOperation) (srv : Server)
  (cmd : Document) :
  get (set_comment this
         (set_maxTimeMS this
            (attach_writeConcern_collation this srv
               (attach_readConcern this cmd)))) "aggregate"
  = get cmd "aggregate".
Proof.
  unfold get.
  rewrite set_comment_frame, set_maxTimeMS_frame,
    attach_writeConcern_collation_frame, attach_readConcern_frame
    by reflexivity.
  reflexivity.
Qed.

(** C2, amended.  For an explainable operation with a directive, on a call
    that passes the collation check (no truthy collation, or wire version at
    least 5): below wire version 6 with a truthy [aggregate] field the call
    writes [explain: true] on the command and sends that document; otherwise
    it leaves the [explain] key alone and sends
    [decorateWithExplain(cmd, this.explain)].  At wire version 5 an aggregate
    gets the flag, at wire version 6 the explain form, whatever the options.
    A call stopped by the collation check writes no flag and sends nothing. *)
Theorem explain_rule_past_collation_gate (this : CommandOperation)
  (srv : Server) (cmd : Document) (e : Explain) :
  hasAspect this EXPLAINABLE = true ->
  explain this = Some e ->
  (truthy (get (merged_options this) "collation") = false
   \/ 5 <= maxWireVersion srv ->
     (maxWireVersion srv < 6 ->
      truthy (get cmd "aggregate") = true ->
        lookup (callerCmd (executeCommand this srv cmd)) "explain"
        = Some (VBoolean true)
        /\ sentCommands (events (executeCommand this srv cmd))
           = [(namespace_toString (ns this),
               callerCmd (executeCommand this srv cmd),
               exec_options this)])
     /\ (6 <= maxWireVersion srv \/ truthy (get cmd "aggregate") = false ->
        lookup (callerCmd (executeCommand this srv cmd)) "explain"
        = lookup cmd "explain"
        /\ sentCommands (events (executeCommand this srv cmd))
           = [(namespace_toString (ns this),
               decorateWithExplain (callerCmd (executeCommand this srv cmd)) e,
               exec_options this)]))
  /\ (maxWireVersion srv = 5 ->
      truthy (get cmd "aggregate") = true ->
      lookup (callerCmd (executeCommand this srv cmd)) "explain"
      = Some (VBoolean true)
      /\ sentCommands (events (executeCommand this srv cmd))
         = [(namespace_toString (ns this),
             callerCmd (executeCommand this srv cmd),
             exec_options this)])
  /\ (maxWireVersion srv = 6 ->
      sentCommands (events (executeCommand this srv cmd))
      = [(namespace_toString (ns this),
          decorateWithExplain (callerCmd (executeCommand this srv cmd)) e,
          exec_options this)])
  /\ (truthy (get (merged_options this) "collation") = true ->
      maxWireVersion srv < 5 ->
      lookup (callerCmd (executeCommand this srv cmd)) "explain"
      = lookup cmd "explain"
      /\ sentCommands (events (executeCommand this srv cmd)) = []).
Proof.
  intros Ha He.
  assert (Hlegacy :
    truthy (get (merged_options this) "collation") = false
    \/ 5 <= maxWireVersion srv ->
    maxWireVersion srv < 6 ->
    truthy (get cmd "aggregate") = true ->
    lookup (callerCmd (executeCommand this srv cmd)) "explain"
    = Some (VBoolean true)
    /\ sentCommands (events (executeCommand this srv cmd))
       = [(namespace_toString (ns this),
           callerCmd (executeCommand this srv cmd),
           exec_options this)]).
  { intros Hgate Hv Hagg.
    rewrite callerCmd_executeCommand, sentCommands_executeCommand.
    rewrite (collation_unsupported_false this srv Hgate).
    unfold apply_explain. rewrite Ha, He, decorated_get_aggregate, Hagg.
    apply Z.ltb_lt in Hv. rewrite Hv. simpl.
    split; [apply lookup_set_prop_eq | reflexivity]. }
  assert (Hwrap :
    truthy (get (merged_options this) "collation") = false
    \/ 5 <= maxWireVersion srv ->
    6 <= maxWireVersion srv \/ truthy (get cmd "aggregate") = false ->
    lookup (callerCmd (executeCommand this srv cmd)) "explain"
    = lookup cmd "explain"
    /\ sentCommands (events (executeCommand this srv cmd))
       = [(namespace_toString (ns this),
           decorateWithExplain (callerCmd (executeCommand this srv cmd)) e,
           exec_options this)]).
  { intros Hgate Hcase.
    rewrite callerCmd_executeCommand, sentCommands_executeCommand.
    rewrite (collation_unsupported_false this srv Hgate).
    unfold apply_explain. rewrite Ha, He, decorated_get_aggregate.
    assert (Hb : (maxWireVersion srv <? 6) && truthy (get cmd "aggregate")
                 = false).
    { destruct Hcase as [Hv|Hagg].
      - apply Z.ltb_ge in Hv. now rewrite Hv.
      - now rewrite Hagg, andb_false_r. }
    rewrite Hb. simpl. split; [|reflexivity].
    rewrite set_comment_frame, set_maxTimeMS_frame,
      attach_writeConcern_collation_frame, attach_readConcern_frame
      by reflexivity.
    reflexivity. }
  split; [|split; [|split]].
  - intros Hgate. split; [now apply Hlegacy | now apply Hwrap].
  - intros Hv Hagg. apply Hlegacy; [right|..]; auto; lia.
  - intros Hv. apply Hwrap; [right|left]; lia.
  - intros Hc Hv.
    rewrite callerCmd_executeCommand, sentCommands_executeCommand.
    rewrite (collation_unsupported_true this srv Hc Hv).
    split; [now apply attach_readConcern_frame | reflexivity].
Qed.

(** *** The pipeline as field writes *)

Lemma write_all_app (a b : list (string * Value)) (d : Document) :
  write_all (a ++ b) d = write_all b (write_all a d).
Proof. apply fold_left_app. Qed.

Lemma write_all_absorb (ws : list (string * Value)) (d : Document) :
  (forall k v, In (k, v) ws -> lookup d k = Some v) ->
  write_all ws d = d.
Proof.
  induction ws as [|[k v] ws IH]; simpl; intros H; [reflexivity|].
  rewrite set_prop_absorb by (apply H; now left).
  apply IH. intros k' v' Hin. apply H. now right.
Qed.

Lemma lookup_write_all_notin (ws : list (string * Value)) (d : Document)
  (k : string) :
  ~ In k (map fst ws) ->
  lookup (write_all ws d) k = lookup d k.
Proof.
  revert d. induction ws as [|[k0 v0] ws IH]; simpl; intros d Hn;
    [reflexivity|].
  rewrite IH by tauto.
  apply lookup_set_prop_ne. apply String.eqb_neq. tauto.
Qed.

Lemma lookup_write_all_in (ws : list (string * Value)) (d : Document)
  (k : string) (v : Value) :
  NoDup (map fst ws) ->
  In (k, v) ws ->
  lookup (write_all ws d) k = Some v.
Proof.
  revert d. induction ws as [|[k0 v0] ws IH]; simpl; intros d Hnd Hin;
    [tauto|].
  inversion Hnd as [|? ? Hnotin Hnd']; subst.
  destruct Hin as [Heq|Hin].
  - inversion Heq; subst.
    rewrite lookup_write_all_notin by exact Hnotin.
    apply lookup_set_prop_eq.
  - now apply IH.
Qed.

(** Repeating a list of writes on distinct keys changes nothing. *)
Lemma write_all_idempotent (ws : list (string * Value)) (d : Document) :
  NoDup (map fst ws) ->
  write_all ws (write_all ws d) = write_all ws d.
Proof.
  intros Hnd. apply write_all_absorb.
  intros k v Hin. now apply lookup_write_all_in.
Qed.

Lemma attach_readConcern_writes (this : CommandOperation) (cmd : Document) :
  attach_readConcern this cmd
  = write_all (readConcern_writes this (commandSupportsReadConcern cmd)) cmd.
Proof.
  unfold attach_readConcern, readConcern_writes.
  destruct (readConcern this) as [rc|]; [|reflexivity].
  destruct (commandSupportsReadConcern cmd && negb (in_transaction this));
    [apply Object_assign_single | reflexivity].
Qed.

Lemma attach_writeConcern_collation_writes (this : CommandOperation)
  (srv : Server) (cmd : Document) :
  attach_writeConcern_collation this srv cmd
  = write_all
      (if SUPPORTS_WRITE_CONCERN_AND_COLLATION <=? maxWireVersion srv
       then writeConcern_writes this ++ collation_writes this else []) cmd.
Proof.
  unfold attach_writeConcern_collation, writeConcern_writes, collation_writes.
  destruct (SUPPORTS_WRITE_CONCERN_AND_COLLATION <=? maxWireVersion srv);
    [|reflexivity].
  rewrite write_all_app.
  destruct (truthy _ && TypeTag_eqb _ _);
    [rewrite Object_assign_single|];
    (destruct (writeConcern this) as [wc|]; [|reflexivity]);
    (destruct (hasAspect this WRITE_OPERATION && negb (in_transaction this));
       [|reflexivity]);
    rewrite Object_assign_single; reflexivity.
Qed.

Lemma set_maxTimeMS_writes (this : CommandOperation) (cmd : Document) :
  set_maxTimeMS this cmd = write_all (maxTimeMS_writes this) cmd.
Proof.
  unfold set_maxTimeMS, maxTimeMS_writes. now destruct (TypeTag_eqb _ _).
Qed.

Lemma set_comment_writes (this : CommandOperation) (cmd : Document) :
  set_comment this cmd = write_all (comment_writes this) cmd.
Proof.
  unfold set_comment, comment_writes. now destruct (TypeTag_eqb _ _).
Qed.

Lemma apply_explain_writes (this : CommandOperation) (srv : Server)
  (cmd : Document) :
  fst (apply_explain this srv cmd)
  = write_all (explain_writes this srv (truthy (get cmd "aggregate"))) cmd.
Proof.
  unfold apply_explain, explain_writes, legacy_explain.
  destruct (if hasAspect this EXPLAINABLE then explain this else None);
    [|reflexivity].
  simpl. now destruct ((maxWireVersion srv <? 6) && truthy (get cmd "aggregate")).
Qed.

(** What is sent, in terms of the caller's document after the call. *)
Lemma apply_explain_sent (this : CommandOperation) (srv : Server)
  (cmd : Document) :
  snd (apply_explain this srv cmd)
  = match (if hasAspect this EXPLAINABLE then explain this else None) with
    | Some e =>
        if legacy_explain this srv (truthy (get cmd "aggregate"))
        then fst (apply_explain this srv cmd)
        else decorateWithExplain (fst (apply_explain this srv cmd)) e
    | None => fst (apply_explain this srv cmd)
    end.
Proof.
  unfold apply_explain, legacy_explain.
  destruct (if hasAspect this EXPLAINABLE then explain this else None);
    [|reflexivity].
  simpl. now destruct ((maxWireVersion srv <? 6) && truthy (get cmd "aggregate")).
Qed.

(** The caller's document after a call is the input with the pipeline's
    writes applied. *)
Lemma callerCmd_as_writes (this : CommandOperation) (srv : Server)
  (cmd : Document) :
  callerCmd (executeCommand this srv cmd)
  = write_all
      (pipeline_writes this srv (commandSupportsReadConcern cmd)
         (truthy (get cmd "aggregate"))) cmd.
Proof.
  rewrite callerCmd_executeCommand. unfold pipeline_writes.
  rewrite write_all_app, <- attach_readConcern_writes.
  destruct (collation_unsupported this srv); [reflexivity|].
  rewrite apply_explain_writes, decorated_get_aggregate.
  rewrite set_comment_writes, set_maxTimeMS_writes,
    attach_writeConcern_collation_writes.
  now rewrite !write_all_app.
Qed.

Lemma pipeline_writes_keys (this : CommandOperation) (srv : Server)
  (supported aggregate : bool) :
  NoDup (map fst (pipeline_writes this srv supported aggregate))
  /\ incl (map fst (pipeline_writes this srv supported aggregate))
          decoration_keys.
Proof.
  unfold pipeline_writes, readConcern_writes, writeConcern_writes,
    collation_writes, maxTimeMS_writes, comment_writes, explain_writes.
  destruct (readConcern this) as [rc|];
    [destruct (supported && negb (in_transaction this))|];
    (destruct (collation_unsupported this srv);
     [|destruct (SUPPORTS_WRITE_CONCERN_AND_COLLATION <=? maxWireVersion srv);
       [destruct (writeConcern this) as [wc|];
        [destruct (hasAspect this WRITE_OPERATION
                   && negb (in_transaction this))|];
        destruct (truthy _ && TypeTag_eqb _ _)|];
       destruct (TypeTag_eqb (typeof (get _ "maxTimeMS")) _);
       destruct (TypeTag_eqb (typeof (get _ "comment")) _);
       destruct (legacy_explain this srv aggregate)]);
    simpl; (split;
      [repeat constructor; simpl; intuition discriminate
      |intros k Hk; simpl in Hk; unfold decoration_keys; simpl; intuition]).
Qed.

Lemma get_aggregate_write_all (ws : list (string * Value)) (d : Document) :
  incl (map fst ws) decoration_keys ->
  get (write_all ws d) "aggregate" = get d "aggregate".
Proof.
  intros Hincl. unfold get. rewrite lookup_write_all_notin; [reflexivity|].
  intros Hin. apply Hincl in Hin. unfold decoration_keys in Hin. simpl in Hin.
  intuition discriminate.
Qed.

Lemma supported_write_all (ws : list (string * Value)) (d : Document) :
  (forall d' k v, In k decoration_keys ->
     commandSupportsReadConcern (set_prop d' k v)
     = commandSupportsReadConcern d') ->
  incl (map fst ws) decoration_keys ->
  commandSupportsReadConcern (write_all ws d) = commandSupportsReadConcern d.
Proof.
  intros Hstable. revert d.
  induction ws as [|[k v] ws IH]; simpl; intros d Hincl; [reflexivity|].
  rewrite IH by (intros x Hx; apply Hincl; now right).
  apply Hstable. apply Hincl. now left.
Qed.

Lemma executeCommand_with_server (this : CommandOperation) (srv : Server)
  (cmd : Document) :
  executeCommand (with_server this srv) srv cmd = executeCommand this srv cmd.
Proof. reflexivity. Qed.

Lemma reportedErrors_executeCommand (this : CommandOperation) (srv : Server)
  (cmd : Document) :
  reportedErrors (events (executeCommand this srv cmd))
  = if collation_unsupported this srv
    then [collation_error srv (maxWireVersion srv)] else [].
Proof.
  rewrite events_executeCommand.
  destruct (collation_unsupported this srv); [reflexivity|].
  cbv zeta. rewrite reportedErrors_app.
  now rewrite (proj2 (sentCommands_debug_trace this _)).
Qed.

(** What is sent is determined by the caller's document after the call and
    by the [aggregate] field of the input. *)
Lemma sentCommands_from_callerCmd (this : CommandOperation) (srv : Server)
  (cmd : Document) :
  sentCommands (events (executeCommand this srv cmd))
  = if collation_unsupported this srv then []
    else [(namespace_toString (ns this),
           match (if hasAspect this EXPLAINABLE then explain this else None)
           with
           | Some e =>
               if legacy_explain this srv (truthy (get cmd "aggregate"))
               then callerCmd (executeCommand this srv cmd)
               else decorateWithExplain
                      (callerCmd (executeCommand this srv cmd)) e
           | None => callerCmd (executeCommand this srv cmd)
           end,
           exec_options this)].
Proof.
  rewrite sentCommands_executeCommand, callerCmd_executeCommand.
  destruct (collation_unsupported this srv); [reflexivity|].
  now rewrite apply_explain_sent, decorated_get_aggregate.
Qed.

(** C8.  Running [executeCommand] again with the same operation, server and
    an equal command document gives the same outcome; and running it again on
    the very document the first call has written on - provided the test of
    [commandSupportsReadConcern] does not depend on the fields the pipeline
    writes - leaves that document, what is sent, what is reported and the
    operation as the first call left them. *)
Theorem decoration_repeatable (this : CommandOperation) (srv : Server)
  (cmd : Document) :
  executeCommand (operation (executeCommand this srv cmd)) srv cmd
  = executeCommand this srv cmd
  /\ ((forall d k v, In k decoration_keys ->
         commandSupportsReadConcern (set_prop d k v)
         = commandSupportsReadConcern d) ->
      callerCmd
        (executeCommand (operation (executeCommand this srv cmd)) srv
           (callerCmd (executeCommand this srv cmd)))
      = callerCmd (executeCommand this srv cmd)
      /\ sentCommands
           (events
              (executeCommand (operation (executeCommand this srv cmd)) srv
                 (callerCmd (executeCommand this srv cmd))))
         = sentCommands (events (executeCommand this srv cmd))
      /\ reportedErrors
           (events
              (executeCommand (operation (executeCommand this srv cmd)) srv
                 (callerCmd (executeCommand this srv cmd))))
         = reportedErrors (events (executeCommand this srv cmd))
      /\ operation
           (executeCommand (operation (executeCommand this srv cmd)) srv
              (callerCmd (executeCommand this srv cmd)))
         = operation (executeCommand this srv cmd)).
Proof.
  rewrite operation_executeCommand.
  split; [apply executeCommand_with_server|].
  intros Hstable. rewrite !executeCommand_with_server.
  destruct (pipeline_writes_keys this srv (commandSupportsReadConcern cmd)
              (truthy (get cmd "aggregate"))) as [Hnd Hincl].
  assert (Hagg : get (callerCmd (executeCommand this srv cmd)) "aggregate"
                 = get cmd "aggregate").
  { rewrite callerCmd_as_writes. now apply get_aggregate_write_all. }
  assert (Hsup : commandSupportsReadConcern
                   (callerCmd (executeCommand this srv cmd))
                 = commandSupportsReadConcern cmd).
  { rewrite callerCmd_as_writes. now apply supported_write_all. }
  assert (Hdoc : callerCmd
                   (executeCommand this srv
                      (callerCmd (executeCommand this srv cmd)))
                 = callerCmd (executeCommand this srv cmd)).
  { rewrite (callerCmd_as_writes this srv
               (callerCmd (executeCommand this srv cmd))).
    rewrite Hagg, Hsup. rewrite callerCmd_as_writes.
    now apply write_all_idempotent. }
  split; [exact Hdoc|]. split; [|split].
  - rewrite (sentCommands_from_callerCmd this srv
               (callerCmd (executeCommand this srv cmd))).
    rewrite Hdoc, Hagg. symmetry. apply sentCommands_from_callerCmd.
  - now rewrite !reportedErrors_executeCommand.
  - now rewrite !operation_executeCommand.
Qed.

End Claims.

(* ===================================================================== *)
(** ** The claims on concrete calls *)
(* ===================================================================== *)

Section Instances.
Import Sample.

Lemma sample_supported_stable :
  forall d k v, In k decoration_keys ->
    commandSupportsReadConcern (set_prop d k v) = commandSupportsReadConcern d.
Proof.
  intros d k v Hk. unfold decoration_keys in Hk. simpl in Hk.
  cbn [commandSupportsReadConcern imports verbs_with_readConcern existsb].
  decompose [or] Hk; subst; try tauto;
    now rewrite !get_set_prop_ne by reflexivity.
Qed.

(** A collation against wire version 4: one callback error, nothing sent. *)
Lemma collation_gate_fails_without_send_witness :
  truthy (get (options op_collation) "collation") = true
  /\ maxWireVersion legacy_server < 5
  /\ events (executeCommand op_collation legacy_server update_cmd)
     = [CallbackError
          (mkMongoError
             "Server db1.example.com:27017, which reports wire version 4, does not support collation")]
  /\ sentCommands (events (executeCommand op_collation legacy_server update_cmd))
     = [].
Proof.
  split; [reflexivity|]. split; [reflexivity|].
  pose proof (collation_gate_fails_without_send op_collation legacy_server
                update_cmd (or_intror (conj eq_refl eq_refl)) eq_refl) as H.
  vm_compute in H. vm_compute. exact H.
Defined.

(** The read concern is on the [find] document when the collation error of
    wire version 4 is reported. *)
Lemma collation_failure_keeps_readConcern_write_witness :
  callerCmd (executeCommand op_concerns_collation legacy_server find_cmd)
  = [("find", VString "orders"); ("filter", VObject []);
     ("readConcern", VObject majority)]
  /\ lookup
       (callerCmd (executeCommand op_concerns_collation legacy_server find_cmd))
       "readConcern" = Some (VObject majority)
  /\ events (executeCommand op_concerns_collation legacy_server find_cmd)
     = [CallbackError (collation_error legacy_server 4)]
  /\ sentCommands
       (events (executeCommand op_concerns_collation legacy_server find_cmd))
     = [].
Proof.
  pose proof (collation_failure_keeps_readConcern_write op_concerns_collation
                legacy_server find_cmd majority eq_refl eq_refl eq_refl
                (or_intror (conj eq_refl eq_refl)) eq_refl) as H.
  vm_compute in H. vm_compute. exact H.
Defined.

Lemma canRetryWrite_spec_witness :
  canRetryWrite op_explain = false
  /\ canRetryWrite op_collation = true.
Proof.
  split.
  - apply (proj2 (proj1 (canRetryWrite_spec op_explain) eq_refl)).
    discriminate.
  - apply (proj2 (canRetryWrite_spec op_collation)). reflexivity.
Defined.

Lemma transaction_suppresses_concerns_witness :
  lookup (callerCmd (executeCommand op_concerns_in_txn server_3_6 find_cmd))
    "readConcern" = None
  /\ lookup (callerCmd (executeCommand op_concerns_in_txn server_3_6 find_cmd))
       "writeConcern" = None.
Proof.
  destruct (transaction_suppresses_concerns op_concerns_in_txn server_3_6
              find_cmd (mkClientSession true) eq_refl eq_refl)
    as (Hr & Hw & _).
  split; [exact Hr | exact Hw].
Defined.

Lemma writeConcern_attached_exactly_when_witness :
  lookup (callerCmd (executeCommand op_concerns server_3_4 update_cmd))
    "writeConcern" = Some (VObject w1)
  /\ lookup (callerCmd (executeCommand op_concerns legacy_server update_cmd))
       "writeConcern" = None
  /\ reportedErrors (events (executeCommand op_concerns legacy_server update_cmd))
     = [].
Proof.
  split; [|split].
  - apply (proj1 (writeConcern_attached_exactly_when op_concerns server_3_4
                    update_cmd) w1); reflexivity.
  - apply (proj1 (proj2 (writeConcern_attached_exactly_when op_concerns
                           legacy_server update_cmd))).
    left. reflexivity.
  - apply (proj2 (proj2 (writeConcern_attached_exactly_when op_concerns
                           legacy_server update_cmd)));
      [reflexivity | discriminate | reflexivity].
Defined.

Lemma fullResult_overridden_by_options_witness :
  lookup (exec_options op_fullResult) "fullResult" = Some (VNumber 1)
  /\ lookup (exec_options op_collation) "fullResult" = Some (VBoolean false)
  /\ (exists c o,
        sentCommands
          (events (executeCommand op_fullResult server_3_4 update_cmd))
        = [(namespace_toString (ns op_fullResult), c, o)]
        /\ lookup o "fullResult" = Some (VNumber 1))
  /\ (exists c o,
        sentCommands
          (events (executeCommand op_collation server_3_4 update_cmd))
        = [(namespace_toString (ns op_collation), c, o)]
        /\ lookup o "fullResult" = Some (VBoolean false)).
Proof.
  split; [|split; [|split]].
  - apply (proj1 (fullResult_overridden_by_options op_fullResult)).
    reflexivity.
  - apply (proj1 (proj2 (fullResult_overridden_by_options op_collation))).
    reflexivity.
  - destruct (proj1 (proj2 (proj2
                (fullResult_overridden_by_options op_fullResult)))
                server_3_4 update_cmd (or_introl eq_refl))
      as (c & o & Hsent & _ & Hflag).
    exists c, o. split; [exact Hsent | exact Hflag].
  - destruct (proj1 (proj2 (proj2
                (fullResult_overridden_by_options op_collation)))
                server_3_4 update_cmd)
      as (c & o & Hsent & _ & Hflag); [right; discriminate|].
    exists c, o. split; [exact Hsent | exact Hflag].
Defined.

(** An override wins over the parent; without one the parent's database is
    used. *)
Lemma namespace_precedence_witness :
  new_CommandOperation plain_write (Some parent_db)
    (Some [("dbName", VString "reports")])
  = Returned
      (mkCommandOperation plain_write [("dbName", VString "reports")]
         (Some []) None None
         (mkMongoDBNamespace (VString "reports") (VString "$cmd"))
         None None None (Some false) None)
  /\ ns (mkCommandOperation plain_write [("dbName", VString "reports")]
           (Some []) None None
           (mkMongoDBNamespace (VString "reports") (VString "$cmd"))
           None None None (Some false) None)
     = mkMongoDBNamespace
         (dbNameOverride (Some [("dbName", VString "reports")]))
         (VString "$cmd").
Proof.
  split; [reflexivity|].
  apply (proj1 (namespace_precedence plain_write (Some parent_db)
                  (Some [("dbName", VString "reports")]) _ eq_refl)).
  reflexivity.
Defined.

(** A plain write refuses [explain: true]; an explainable one built without
    [explain] carries no directive. *)
Lemma explain_gate_at_construction_witness :
  new_CommandOperation plain_write None (Some [("explain", VBoolean true)])
  = Thrown (mkMongoError "explain is not supported on this command")
  /\ exists op,
       new_CommandOperation explainable_write None (Some [("w", VNumber 1)])
       = Returned op
       /\ explain op = None.
Proof.
  split.
  - apply (proj1 (explain_gate_at_construction plain_write None
                    (Some [("explain", VBoolean true)]))); reflexivity.
  - destruct (proj2 (explain_gate_at_construction explainable_write None
                       (Some [("w", VNumber 1)])) eq_refl eq_refl)
      as (op & Hnew & He & _).
    + intros o Ho. cbn [Explain_fromOptions imports].
      now destruct (get_opt o "explain").
    + exists op. split; [exact Hnew | exact He].
Defined.

(** An explained aggregate: the flag at wire version 5. *)
Lemma explain_rule_past_collation_gate_witness :
  hasAspect op_explain EXPLAINABLE = true
  /\ explain op_explain = Some directive
  /\ lookup (callerCmd (executeCommand op_explain server_3_4 aggregate_cmd))
       "explain" = Some (VBoolean true).
Proof.
  split; [reflexivity|]. split; [reflexivity|].
  apply (proj1 (proj2 (explain_rule_past_collation_gate op_explain server_3_4
                         aggregate_cmd directive eq_refl eq_refl)));
    reflexivity.
Defined.

(** A second call on the document the first one decorated. *)
Lemma decoration_repeatable_witness :
  callerCmd
    (executeCommand
       (operation (executeCommand op_concerns server_3_4 find_cmd)) server_3_4
       (callerCmd (executeCommand op_concerns server_3_4 find_cmd)))
  = callerCmd (executeCommand op_concerns server_3_4 find_cmd).
Proof.
  apply (proj2 (decoration_repeatable op_concerns server_3_4 find_cmd)).
  exact sample_supported_stable.
Defined.

(** C2, as stated, fails: an explained aggregate with a collation against
    wire version 4 is stopped by the collation check; the command gets no
    [explain] flag and nothing is sent. *)
Lemma explain_rule_as_stated_fails :
  hasAspect op_explain_collation EXPLAINABLE = true
  /\ explain op_explain_collation = Some directive
  /\ maxWireVersion legacy_server < 6
  /\ truthy (get aggregate_cmd "aggregate") = true
  /\ callerCmd (executeCommand op_explain_collation legacy_server aggregate_cmd)
     = aggregate_cmd
  /\ sentCommands
       (events (executeCommand op_explain_collation legacy_server aggregate_cmd))
     = []
  /\ ~ explain_rule_as_stated op_explain_collation legacy_server aggregate_cmd.
Proof.
  repeat (split; [reflexivity|]).
  intros H.
  destruct (H directive eq_refl eq_refl) as [Hflag _].
  specialize (Hflag (conj eq_refl eq_refl)).
  vm_compute in Hflag. discriminate.
Qed.

(** The same explained aggregate against wire versions 5 and 6. *)
Example explained_aggregate_wire_5 :
  sentCommands (events (executeCommand op_explain server_3_4 aggregate_cmd))
  = [("admin.$cmd",
      [("aggregate", VString "orders"); ("pipeline", VArray []);
       ("cursor", VObject []); ("explain", VBoolean true)],
      [("fullResult", VBoolean false); ("explain", VBoolean true)])].
Proof. reflexivity. Qed.

Example explained_aggregate_wire_6 :
  sentCommands (events (executeCommand op_explain server_3_6 aggregate_cmd))
  = [("admin.$cmd",
      [("explain", VObject aggregate_cmd);
       ("verbosity", VString "allPlansExecution")],
      [("fullResult", VBoolean false); ("explain", VBoolean true)])]
  /\ callerCmd (executeCommand op_explain server_3_6 aggregate_cmd)
     = aggregate_cmd.
Proof. split; reflexivity. Qed.

(** Both concerns on an [update] at wire version 5: the verb takes no read
    concern, the write concern is attached. *)
Example concerns_on_update_wire_5 :
  callerCmd (executeCommand op_concerns server_3_4 update_cmd)
  = [("update", VString "orders"); ("updates", VArray []);
     ("writeConcern", VObject w1)].
Proof. reflexivity. Qed.

End Instances.

(* ===================================================================== *)
(** ** Further properties of [executeCommand] and the constructor *)
(* ===================================================================== *)

Section FurtherProperties.
Context {imports : Imports}.

Lemma TypeTag_eqb_eq (a b : TypeTag) : TypeTag_eqb a b = true <-> a = b.
Proof. destruct a, b; simpl; split; intros H; congruence. Qed.

Lemma TypeTag_eqb_neq (a b : TypeTag) : TypeTag_eqb a b = false <-> a <> b.
Proof. destruct a, b; simpl; split; intros H; congruence. Qed.

(** A key the later steps do not write reads the same after the call as
    after the read-concern step. *)
Lemma lookup_callerCmd_early (this : CommandOperation) (srv : Server)
  (cmd : Document) (k : string) :
  ("writeConcern" =? k)%string = false ->
  ("collation" =? k)%string = false ->
  ("maxTimeMS" =? k)%string = false ->
  ("comment" =? k)%string = false ->
  ("explain" =? k)%string = false ->
  lookup (callerCmd (executeCommand this srv cmd)) k
  = lookup (attach_readConcern this cmd) k.
Proof.
  intros Hw Hc Hm Ho He. rewrite callerCmd_executeCommand.
  destruct (collation_unsupported this srv); [reflexivity|].
  now rewrite apply_explain_frame, set_comment_frame, set_maxTimeMS_frame,
    attach_writeConcern_collation_frame.
Qed.

Lemma passes_gate (this : CommandOperation) (srv : Server) :
  collation_unsupported this srv = false
  <-> truthy (get (merged_options this) "collation") = false
      \/ 5 <= maxWireVersion srv.
Proof.
  split; [|apply collation_unsupported_false].
  unfold collation_unsupported, SUPPORTS_WRITE_CONCERN_AND_COLLATION.
  intros H. apply andb_false_iff in H. destruct H as [H|H]; [now left|].
  right. now apply Z.ltb_ge.
Qed.

Lemma fails_gate (this : CommandOperation) (srv : Server) :
  collation_unsupported this srv = true
  <-> truthy (get (merged_options this) "collation") = true
      /\ maxWireVersion srv < 5.
Proof.
  unfold collation_unsupported, SUPPORTS_WRITE_CONCERN_AND_COLLATION.
  rewrite andb_true_iff, Z.ltb_lt. reflexivity.
Qed.

(** X1.  The read concern is written on the command exactly when one is set,
    the verb supports it and no transaction is active - at every wire
    version, and also on a call the collation check then rejects; in every
    other case the key is left as the caller passed it. *)
Theorem readConcern_attached_exactly_when (this : CommandOperation)
  (srv : Server) (cmd : Document) :
  (forall rc,
      readConcern this = Some rc ->
      commandSupportsReadConcern cmd = true ->
      in_transaction this = false ->
      lookup (callerCmd (executeCommand this srv cmd)) "readConcern"
      = Some (VObject rc))
  /\ (readConcern this = None \/ commandSupportsReadConcern cmd = false
      \/ in_transaction this = true ->
      lookup (callerCmd (executeCommand this srv cmd)) "readConcern"
      = lookup cmd "readConcern").
Proof.
  rewrite lookup_callerCmd_early by reflexivity.
  unfold attach_readConcern. split.
  - intros rc Hrc Hs Ht. rewrite Hrc, Hs, Ht. simpl.
    rewrite Object_assign_single. apply lookup_set_prop_eq.
  - intros Hcase. destruct (readConcern this) as [rc|]; [|reflexivity].
    destruct Hcase as [Hn|[Hs|Ht]]; [discriminate| |].
    + now rewrite Hs.
    + now rewrite Ht, andb_false_r.
Qed.

(** What the collation step leaves under the key [collation]. *)
Lemma attach_writeConcern_collation_collation (this : CommandOperation)
  (srv : Server) (cmd : Document) :
  lookup (attach_writeConcern_collation this srv cmd) "collation"
  = if (5 <=? maxWireVersion srv)
       && (truthy (get (merged_options this) "collation")
           && TypeTag_eqb (typeof (get (merged_options this) "collation"))
                TObject)
    then Some (get (merged_options this) "collation")
    else lookup cmd "collation".
Proof.
  unfold attach_writeConcern_collation, SUPPORTS_WRITE_CONCERN_AND_COLLATION.
  destruct (5 <=? maxWireVersion srv); simpl; [|reflexivity].
  destruct (truthy _ && TypeTag_eqb _ _).
  - rewrite Object_assign_single. apply lookup_set_prop_eq.
  - destruct (writeConcern this) as [wc|]; [|reflexivity].
    destruct (hasAspect this WRITE_OPERATION && negb (in_transaction this));
      [|reflexivity].
    rewrite Object_assign_single. now apply lookup_set_prop_ne.
Qed.

Lemma lookup_callerCmd_collation (this : CommandOperation) (srv : Server)
  (cmd : Document) :
  lookup (callerCmd (executeCommand this srv cmd)) "collation"
  = if (5 <=? maxWireVersion srv)
       && (truthy (get (merged_options this) "collation")
           && TypeTag_eqb (typeof (get (merged_options this) "collation"))
                TObject)
    then Some (get (merged_options this) "collation")
    else lookup cmd "collation".
Proof.
  rewrite callerCmd_executeCommand.
  destruct (collation_unsupported this srv) eqn:Hgate.
  - apply fails_gate in Hgate. destruct Hgate as [_ Hv].
    apply Z.leb_gt in Hv. rewrite Hv. simpl.
    now apply attach_readConcern_frame.
  - rewrite apply_explain_frame, set_comment_frame, set_maxTimeMS_frame
      by reflexivity.
    rewrite attach_writeConcern_collation_collation.
    now rewrite attach_readConcern_frame by reflexivity.
Qed.

(** X2.  The collation is written on the command exactly when the wire
    version is at least 5 and the option is truthy and of type object; in
    every other case the key is left as the caller passed it.  A truthy
    collation that is not an object (a bare string, say) is refused below
    wire version 5 like any other, but from 5 on it is dropped without an
    error and the command is sent. *)
Theorem collation_attached_exactly_when (this : CommandOperation)
  (srv : Server) (cmd : Document) :
  (5 <= maxWireVersion srv ->
   truthy (get (merged_options this) "collation") = true ->
   typeof (get (merged_options this) "collation") = TObject ->
   lookup (callerCmd (executeCommand this srv cmd)) "collation"
   = Some (get (merged_options this) "collation"))
  /\ (maxWireVersion srv < 5
      \/ truthy (get (merged_options this) "collation") = false
      \/ typeof (get (merged_options this) "collation") <> TObject ->
      lookup (callerCmd (executeCommand this srv cmd)) "collation"
      = lookup cmd "collation")
  /\ (5 <= maxWireVersion srv ->
      truthy (get (merged_options this) "collation") = true ->
      typeof (get (merged_options this) "collation") <> TObject ->
      reportedErrors (events (executeCommand this srv cmd)) = []
      /\ List.length (sentCommands (events (executeCommand this srv cmd)))
         = 1%nat).
Proof.
  rewrite lookup_callerCmd_collation. split; [|split].
  - intros Hv Ht Hty. apply Z.leb_le in Hv. apply TypeTag_eqb_eq in Hty.
    now rewrite Hv, Ht, Hty.
  - intros [Hv|[Ht|Hty]].
    + apply Z.leb_gt in Hv. now rewrite Hv.
    + now rewrite Ht, andb_false_r.
    + apply TypeTag_eqb_neq in Hty. now rewrite Hty, !andb_false_r.
  - intros Hv _ _.
    rewrite reportedErrors_executeCommand, sentCommands_executeCommand.
    now rewrite (collation_unsupported_false this srv (or_intror Hv)).
Qed.

Lemma lookup_callerCmd_maxTimeMS (this : CommandOperation) (srv : Server)
  (cmd : Document) :
  lookup (callerCmd (executeCommand this srv cmd)) "maxTimeMS"
  = if negb (collation_unsupported this srv)
       && TypeTag_eqb (typeof (get (merged_options this) "maxTimeMS")) TNumber
    then Some (get (merged_options this) "maxTimeMS")
    else lookup cmd "maxTimeMS".
Proof.
  rewrite callerCmd_executeCommand.
  destruct (collation_unsupported this srv); simpl.
  - now apply attach_readConcern_frame.
  - rewrite apply_explain_frame, set_comment_frame by reflexivity.
    unfold set_maxTimeMS. destruct (TypeTag_eqb _ _).
    + apply lookup_set_prop_eq.
    + now rewrite attach_writeConcern_collation_frame,
        attach_readConcern_frame.
Qed.

Lemma lookup_callerCmd_comment (this : CommandOperation) (srv : Server)
  (cmd : Document) :
  lookup (callerCmd (executeCommand this srv cmd)) "comment"
  = if negb (collation_unsupported this srv)
       && TypeTag_eqb (typeof (get (merged_options this) "comment")) TString
    then Some (get (merged_options this) "comment")
    else lookup cmd "comment".
Proof.
  rewrite callerCmd_executeCommand.
  destruct (collation_unsupported this srv); simpl.
  - now apply attach_readConcern_frame.
  - rewrite apply_explain_frame by reflexivity.
    unfold set_comment. destruct (TypeTag_eqb _ _).
    + apply lookup_set_prop_eq.
    + now rewrite set_maxTimeMS_frame, attach_writeConcern_collation_frame,
        attach_readConcern_frame.
Qed.

(** X3.  On a call that passes the collation check, [maxTimeMS] is written on
    the command exactly when the option is of type number - at every wire
    version, and for the number 0 as well; a limit of another type, or a call
    the collation check rejects, leaves the key as the caller passed it. *)
Theorem maxTimeMS_set_exactly_when (this : CommandOperation) (srv : Server)
  (cmd : Document) :
  (truthy (get (merged_options this) "collation") = false
   \/ 5 <= maxWireVersion srv ->
   typeof (get (merged_options this) "maxTimeMS") = TNumber ->
   lookup (callerCmd (executeCommand this srv cmd)) "maxTimeMS"
   = Some (get (merged_options this) "maxTimeMS"))
  /\ ((truthy (get (merged_options this) "collation") = true
       /\ maxWireVersion srv < 5)
      \/ typeof (get (merged_options this) "maxTimeMS") <> TNumber ->
      lookup (callerCmd (executeCommand this srv cmd)) "maxTimeMS"
      = lookup cmd "maxTimeMS").
Proof.
  rewrite lookup_callerCmd_maxTimeMS. split.
  - intros Hgate Hty. apply passes_gate in Hgate. apply TypeTag_eqb_eq in Hty.
    now rewrite Hgate, Hty.
  - intros [Hgate|Hty].
    + apply fails_gate in Hgate. now rewrite Hgate.
    + apply TypeTag_eqb_neq in Hty. now rewrite Hty, andb_false_r.
Qed.

(** X4.  On a call that passes the collation check, [comment] is written on
    the command exactly when the option is a string (the empty string
    included); a comment of another type (a document, say) is never written,
    and a rejected call leaves the key as the caller passed it. *)
Theorem comment_set_exactly_when (this : CommandOperation) (srv : Server)
  (cmd : Document) :
  (truthy (get (merged_options this) "collation") = false
   \/ 5 <= maxWireVersion srv ->
   typeof (get (merged_options this) "comment") = TString ->
   lookup (callerCmd (executeCommand this srv cmd)) "comment"
   = Some (get (merged_options this) "comment"))
  /\ ((truthy (get (merged_options this) "collation") = true
       /\ maxWireVersion srv < 5)
      \/ typeof (get (merged_options this) "comment") <> TString ->
      lookup (callerCmd (executeCommand this srv cmd)) "comment"
      = lookup cmd "comment").
Proof.
  rewrite lookup_callerCmd_comment. split.
  - intros Hgate Hty. apply passes_gate in Hgate. apply TypeTag_eqb_eq in Hty.
    now rewrite Hgate, Hty.
  - intros [Hgate|Hty].
    + apply fails_gate in Hgate. now rewrite Hgate.
    + apply TypeTag_eqb_neq in Hty. now rewrite Hty, andb_false_r.
Qed.

(** X6.  Every call does exactly one of two things: it reports one error
    through the callback, or it hands one command to the transport.  It
    reports the error exactly when the collation is truthy and the wire
    version is below 5. *)
Theorem exactly_one_outcome (this : CommandOperation) (srv : Server)
  (cmd : Document) :
  (List.length (reportedErrors (events (executeCommand this srv cmd)))
   + List.length (sentCommands (events (executeCommand this srv cmd))))%nat
  = 1%nat
  /\ (reportedErrors (events (executeCommand this srv cmd)) = []
      <-> truthy (get (merged_options this) "collation") = false
          \/ 5 <= maxWireVersion srv)
  /\ (sentCommands (events (executeCommand this srv cmd)) = []
      <-> truthy (get (merged_options this) "collation") = true
          /\ maxWireVersion srv < 5).
Proof.
  rewrite reportedErrors_executeCommand, sentCommands_executeCommand.
  rewrite <- passes_gate, <- fails_gate.
  destruct (collation_unsupported this srv); simpl;
    repeat split; intros; congruence.
Qed.

(** X7.  A call the collation check rejects has written at most the
    [readConcern] field: every other field of the caller's document is as it
    was, the document is unchanged when the read-concern step does not apply,
    and the logger has not been called. *)
Theorem failed_call_writes_only_readConcern (this : CommandOperation)
  (srv : Server) (cmd : Document) :
  truthy (get (merged_options this) "collation") = true ->
  maxWireVersion srv < 5 ->
  (forall k, k <> "readConcern" ->
     lookup (callerCmd (executeCommand this srv cmd)) k = lookup cmd k)
  /\ (readConcern this = None \/ commandSupportsReadConcern cmd = false
      \/ in_transaction this = true ->
      callerCmd (executeCommand this srv cmd) = cmd)
  /\ (forall c n, ~ In (LoggerDebug c n) (events (executeCommand this srv cmd))).
Proof.
  intros Hc Hv.
  rewrite callerCmd_executeCommand, events_executeCommand.
  rewrite (collation_unsupported_true this srv Hc Hv).
  split; [|split].
  - intros k Hk. apply attach_readConcern_frame.
    apply String.eqb_neq. congruence.
  - intros Hcase. unfold attach_readConcern.
    destruct (readConcern this) as [rc|]; [|reflexivity].
    destruct Hcase as [Hn|[Hs|Ht]]; [discriminate| |].
    + now rewrite Hs.
    + now rewrite Ht, andb_false_r.
  - intros c n [H|[]]. discriminate.
Qed.

(** X8.  A call records the server on the operation - also when the
    collation check rejects it - and changes nothing else: aspects, options,
    session, namespace, concerns, directive, flags and logger stay, and so
    does [canRetryWrite]. *)
Theorem executeCommand_records_server (this : CommandOperation)
  (srv : Server) (cmd : Document) :
  server (operation (executeCommand this srv cmd)) = Some srv
  /\ aspects (operation (executeCommand this srv cmd)) = aspects this
  /\ options (operation (executeCommand this srv cmd)) = options this
  /\ bsonOptions (operation (executeCommand this srv cmd)) = bsonOptions this
  /\ session (operation (executeCommand this srv cmd)) = session this
  /\ ns (operation (executeCommand this srv cmd)) = ns this
  /\ readConcern (operation (executeCommand this srv cmd)) = readConcern this
  /\ writeConcern (operation (executeCommand this srv cmd))
     = writeConcern this
  /\ explain (operation (executeCommand this srv cmd)) = explain this
  /\ fullResponse (operation (executeCommand this srv cmd))
     = fullResponse this
  /\ logger (operation (executeCommand this srv cmd)) = logger this
  /\ canRetryWrite (operation (executeCommand this srv cmd))
     = canRetryWrite this.
Proof.
  rewrite operation_executeCommand. repeat split.
Qed.

(** *** The order of the fields *)

Lemma isSome_lookup_set_prop (d : Document) (k k' : string) (v : Value) :
  isSome (lookup (set_prop d k v) k')
  = ((k =? k')%string || isSome (lookup d k')).
Proof.
  destruct (k =? k')%string eqn:E.
  - apply String.eqb_eq in E. subst. now rewrite lookup_set_prop_eq.
  - now rewrite lookup_set_prop_ne.
Qed.

(** A write keeps the keys in place and puts a new key last. *)
Lemma keys_set_prop (d : Document) (k : string) (v : Value) :
  map fst (set_prop d k v)
  = (map fst d ++ (if isSome (lookup d k) then [] else [k]))%list.
Proof.
  induction d as [|[k0 v0] rest IH]; simpl; [reflexivity|].
  destruct (k0 =? k)%string; simpl.
  - now rewrite app_nil_r.
  - now rewrite IH.
Qed.

Lemma keys_write_all (ws : list (string * Value)) (d : Document) :
  NoDup (map fst ws) ->
  map fst (write_all ws d)
  = (map fst d
     ++ filter (fun k => negb (isSome (lookup d k))) (map fst ws))%list.
Proof.
  revert d. induction ws as [|[k v] ws IH]; intros d Hnd; simpl.
  - now rewrite app_nil_r.
  - inversion Hnd as [|? ? Hnotin Hnd']; subst.
    rewrite IH by exact Hnd'. rewrite keys_set_prop, <- app_assoc. f_equal.
    rewrite (filter_ext_in
               (fun k0 => negb (isSome (lookup (set_prop d k v) k0)))
               (fun k0 => negb (isSome (lookup d k0)))).
    + now destruct (isSome (lookup d k)).
    + intros k0 Hin. rewrite isSome_lookup_set_prop.
      destruct (k =? k0)%string eqn:E; [|reflexivity].
      apply String.eqb_eq in E. subst. contradiction.
Qed.

Lemma isSome_lookup_write_all (ws : list (string * Value)) (d : Document)
  (k : string) :
  isSome (lookup (write_all ws d) k)
  = (existsb (String.eqb k) (map fst ws) || isSome (lookup d k)).
Proof.
  revert d. induction ws as [|[k0 v0] ws IH]; intros d; simpl; [reflexivity|].
  rewrite IH, isSome_lookup_set_prop, (String.eqb_sym k k0).
  destruct (k0 =? k)%string, (existsb (String.eqb k) (map fst ws)); reflexivity.
Qed.

Lemma filter_filter_andb {A : Type} (f g : A -> bool) (l : list A) :
  filter f (filter g l) = filter (fun x => g x && f x) l.
Proof.
  induction l as [|x l IH]; simpl; [reflexivity|].
  destruct (g x); simpl; [destruct (f x)|]; now rewrite IH.
Qed.

(** The keys a call writes come in the order of [decoration_keys]. *)
Lemma pipeline_writes_ordered (this : CommandOperation) (srv : Server)
  (supported aggregate : bool) :
  map fst (pipeline_writes this srv supported aggregate)
  = filter
      (fun k => existsb (String.eqb k)
                  (map fst (pipeline_writes this srv supported aggregate)))
      decoration_keys.
Proof.
  unfold pipeline_writes, readConcern_writes, writeConcern_writes,
    collation_writes, maxTimeMS_writes, comment_writes, explain_writes.
  destruct (readConcern this) as [rc|];
    [destruct (supported && negb (in_transaction this))|];
    (destruct (collation_unsupported this srv);
     [|destruct (SUPPORTS_WRITE_CONCERN_AND_COLLATION <=? maxWireVersion srv);
       [destruct (writeConcern this) as [wc|];
        [destruct (hasAspect this WRITE_OPERATION
                   && negb (in_transaction this))|];
        destruct (truthy _ && TypeTag_eqb _ _)|];
       destruct (TypeTag_eqb (typeof (get _ "maxTimeMS")) _);
       destruct (TypeTag_eqb (typeof (get _ "comment")) _);
       destruct (legacy_explain this srv aggregate)]);
    reflexivity.
Qed.

(** X5.  A call never removes, renames or reorders a field of the caller's
    document: its keys stay in place - the verb stays first - and the keys
    the call adds follow them in the fixed order readConcern, writeConcern,
    collation, maxTimeMS, comment, explain.  A field under any other key
    keeps its value. *)
Theorem caller_fields_kept_in_order (this : CommandOperation) (srv : Server)
  (cmd : Document) :
  map fst (callerCmd (executeCommand this srv cmd))
  = (map fst cmd
     ++ filter
          (fun k =>
             isSome (lookup (callerCmd (executeCommand this srv cmd)) k)
             && negb (isSome (lookup cmd k)))
          decoration_keys)%list
  /\ (forall k, ~ In k decoration_keys ->
        lookup (callerCmd (executeCommand this srv cmd)) k = lookup cmd k)
  /\ (cmd <> [] ->
      hd_error (map fst (callerCmd (executeCommand this srv cmd)))
      = hd_error (map fst cmd)).
Proof.
  destruct (pipeline_writes_keys this srv (commandSupportsReadConcern cmd)
              (truthy (get cmd "aggregate"))) as [Hnd Hincl].
  assert (Hkeys :
    map fst (callerCmd (executeCommand this srv cmd))
    = (map fst cmd
       ++ filter
            (fun k =>
               isSome (lookup (callerCmd (executeCommand this srv cmd)) k)
               && negb (isSome (lookup cmd k)))
            decoration_keys)%list).
  { rewrite callerCmd_as_writes at 1.
    rewrite keys_write_all by exact Hnd. f_equal.
    rewrite pipeline_writes_ordered at 1. rewrite filter_filter_andb.
    apply filter_ext. intros k.
    rewrite callerCmd_as_writes, isSome_lookup_write_all.
    destruct (existsb (String.eqb k) _), (isSome (lookup cmd k)); reflexivity. }
  split; [exact Hkeys|]. split.
  - intros k Hk. rewrite callerCmd_as_writes.
    apply lookup_write_all_notin. intros Hin. apply Hk. now apply Hincl.
  - intros Hne. rewrite Hkeys. destruct cmd as [|[k v] rest]; [congruence|].
    reflexivity.
Qed.

(** X9.  With a logger at debug level, a call that passes the collation
    check logs once, before the send: the logged command is the document
    after the comment step and before the explain step, so it equals the
    command sent when no explain step applies and lacks the explain
    decoration otherwise.  Without such a logger nothing is logged. *)
Theorem debug_log_precedes_send (this : CommandOperation) (srv : Server)
  (cmd : Document) :
  (forall l,
      logger this = Some l ->
      isDebug l = true ->
      truthy (get (merged_options this) "collation") = false
      \/ 5 <= maxWireVersion srv ->
      exists logged sent,
        events (executeCommand this srv cmd)
        = [LoggerDebug logged (ns this);
           ServerCommand (namespace_toString (ns this)) sent
             (exec_options this)]
        /\ (forall k, k <> "explain" ->
              lookup logged k
              = lookup (callerCmd (executeCommand this srv cmd)) k)
        /\ lookup logged "explain" = lookup cmd "explain"
        /\ (hasAspect this EXPLAINABLE = false \/ explain this = None ->
            logged = sent))
  /\ (logger this = None
      \/ (exists l, logger this = Some l /\ isDebug l = false) ->
      forall c n, ~ In (LoggerDebug c n) (events (executeCommand this srv cmd))).
Proof.
  split.
  - intros l Hl Hd Hgate.
    rewrite callerCmd_executeCommand, events_executeCommand.
    rewrite (collation_unsupported_false this srv Hgate). cbv zeta.
    unfold debug_trace. rewrite Hl, Hd. simpl.
    eexists. eexists. split; [reflexivity|]. split; [|split].
    + intros k Hk. symmetry. apply apply_explain_frame.
      apply String.eqb_neq. congruence.
    + now rewrite set_comment_frame, set_maxTimeMS_frame,
        attach_writeConcern_collation_frame, attach_readConcern_frame.
    + intros Hcase. unfold apply_explain.
      destruct Hcase as [Ha|He]; [now rewrite Ha|].
      rewrite He. now destruct (hasAspect this EXPLAINABLE).
  - intros Hcase c n. rewrite events_executeCommand.
    destruct (collation_unsupported this srv).
    + intros [H|[]]. discriminate.
    + cbv zeta. unfold debug_trace.
      destruct Hcase as [Hn|(l & Hl & Hd)].
      * rewrite Hn. simpl. intros [H|[]]. discriminate.
      * rewrite Hl, Hd. simpl. intros [H|[]]. discriminate.
Qed.

(** X10.  The constructor throws in two cases only: a kind without the
    EXPLAINABLE aspect given an [explain] option, and an explainable kind
    for which [Explain.fromOptions] throws (its error is passed on).  An
    operation of a kind without the aspect, once constructed, has no
    directive, can retry writes, and its calls leave [explain] alone and send
    the caller's document itself; an explainable one holds the directive
    [Explain.fromOptions] returned and can retry writes exactly when there is
    none. *)
Theorem construction_outcomes (asp : list Aspect)
  (parent : option OperationParent) (opts : option Document) :
  (forall err,
      new_CommandOperation asp parent opts = Thrown err ->
      (declares asp EXPLAINABLE = true
       /\ Explain_fromOptions opts = Thrown err)
      \/ (declares asp EXPLAINABLE = false
          /\ is_undefined (get_opt opts "explain") = false
          /\ err = mkMongoError "explain is not supported on this command"))
  /\ (forall op,
        new_CommandOperation asp parent opts = Returned op ->
        declares asp EXPLAINABLE = false ->
        is_undefined (get_opt opts "explain") = true
        /\ explain op = None
        /\ canRetryWrite op = true
        /\ forall srv cmd,
             lookup (callerCmd (executeCommand op srv cmd)) "explain"
             = lookup cmd "explain"
             /\ forall n c o,
                  In (n, c, o)
                     (sentCommands (events (executeCommand op srv cmd))) ->
                  c = callerCmd (executeCommand op srv cmd))
  /\ (forall op,
        new_CommandOperation asp parent opts = Returned op ->
        declares asp EXPLAINABLE = true ->
        Explain_fromOptions opts = Returned (explain op)
        /\ canRetryWrite op = negb (isSome (explain op))).
Proof.
  unfold new_CommandOperation, hasAspect. cbn [aspects].
  destruct (declares asp EXPLAINABLE) eqn:Ha.
  - destruct (Explain_fromOptions opts) as [e|err0] eqn:He; simpl.
    + split; [discriminate|]. split; [discriminate|].
      intros op Hop _. inversion Hop; subst; clear Hop.
      split; [reflexivity|].
      unfold canRetryWrite, hasAspect. cbn [aspects explain]. now rewrite Ha.
    + split; [|split; discriminate].
      intros err Herr. inversion Herr; subst. left. now split.
  - destruct (is_undefined (get_opt opts "explain")) eqn:Hu; simpl.
    + split; [discriminate|]. split; [|discriminate].
      intros op Hop _. inversion Hop; subst; clear Hop.
      split; [reflexivity|]. split; [reflexivity|]. split.
      * unfold canRetryWrite, hasAspect. cbn [aspects explain].
        now rewrite Ha.
      * intros srv cmd. now apply no_directive_no_explain.
    + split; [|split; discriminate].
      intros err Herr. inversion Herr; subst. right. auto.
Qed.

(** X11.  Every call of [executeCommand] that passes the collation check
    hands exactly one command to the transport, and the options it passes
    carry every key other than [fullResult] with the value it has in
    [this.options]: a key that [this.options] lacks - one present only in
    the BSON options, for instance - is not forwarded, and [fullResult] is
    always present.  No call sends options of another shape. *)
Theorem options_forwarded_unchanged (this : CommandOperation) (srv : Server)
  (cmd : Document) :
  (truthy (get (merged_options this) "collation") = false
   \/ 5 <= maxWireVersion srv ->
   exists c o,
     sentCommands (events (executeCommand this srv cmd))
     = [(namespace_toString (ns this), c, o)]
     /\ (forall k, k <> "fullResult" -> lookup o k = lookup (options this) k)
     /\ (forall k, k <> "fullResult" -> lookup (options this) k = None ->
           lookup o k = None)
     /\ isSome (lookup o "fullResult") = true)
  /\ (forall n c o,
        In (n, c, o) (sentCommands (events (executeCommand this srv cmd))) ->
        (forall k, k <> "fullResult" -> lookup o k = lookup (options this) k)
        /\ isSome (lookup o "fullResult") = true).
Proof.
  assert (Hother : forall k, k <> "fullResult" ->
            lookup (exec_options this) k = lookup (options this) k).
  { intros k Hk. unfold exec_options, spread. rewrite lookup_Object_assign.
    destruct (lookup (options this) k); [reflexivity|].
    cbn [lookup]. apply String.eqb_neq in Hk. rewrite String.eqb_sym in Hk.
    now rewrite Hk. }
  assert (Hflag : isSome (lookup (exec_options this) "fullResult") = true).
  { unfold exec_options, spread. rewrite lookup_Object_assign.
    now destruct (lookup (options this) "fullResult"). }
  rewrite sentCommands_executeCommand. split.
  - intros Hgate. rewrite (collation_unsupported_false this srv Hgate).
    eexists. eexists. split; [reflexivity|]. split; [exact Hother|].
    split; [|exact Hflag].
    intros k Hk Hnone. now rewrite Hother.
  - intros n c o. destruct (collation_unsupported this srv); simpl; [tauto|].
    intros [Heq|[]]. inversion Heq; subst; clear Heq. now split.
Qed.

(** X12.  The wire version matters only through the thresholds 5 and 6: any
    two servers below 5, and any two at 6 or above, leave the caller's
    document in the same state, are sent the same command with the same
    options, and agree on whether the call is rejected. *)
Theorem decoration_depends_on_version_band (this : CommandOperation)
  (s1 s2 : Server) (cmd : Document) :
  (maxWireVersion s1 < 5 /\ maxWireVersion s2 < 5)
  \/ (6 <= maxWireVersion s1 /\ 6 <= maxWireVersion s2) ->
  callerCmd (executeCommand this s1 cmd)
  = callerCmd (executeCommand this s2 cmd)
  /\ sentCommands (events (executeCommand this s1 cmd))
     = sentCommands (events (executeCommand this s2 cmd))
  /\ (reportedErrors (events (executeCommand this s1 cmd)) = []
      <-> reportedErrors (events (executeCommand this s2 cmd)) = []).
Proof.
  intros Hband.
  assert (H5 : (maxWireVersion s1 <? 5) = (maxWireVersion s2 <? 5)).
  { destruct Hband as [[H1 H2]|[H1 H2]].
    - apply Z.ltb_lt in H1, H2. congruence.
    - assert (E1 : (maxWireVersion s1 <? 5) = false) by (apply Z.ltb_ge; lia).
      assert (E2 : (maxWireVersion s2 <? 5) = false) by (apply Z.ltb_ge; lia).
      congruence. }
  assert (H5' : (5 <=? maxWireVersion s1) = (5 <=? maxWireVersion s2)).
  { destruct Hband as [[H1 H2]|[H1 H2]].
    - apply Z.leb_gt in H1, H2. congruence.
    - assert (E1 : (5 <=? maxWireVersion s1) = true) by (apply Z.leb_le; lia).
      assert (E2 : (5 <=? maxWireVersion s2) = true) by (apply Z.leb_le; lia).
      congruence. }
  assert (H6 : (maxWireVersion s1 <? 6) = (maxWireVersion s2 <? 6)).
  { destruct Hband as [[H1 H2]|[H1 H2]].
    - assert (E1 : (maxWireVersion s1 <? 6) = true) by (apply Z.ltb_lt; lia).
      assert (E2 : (maxWireVersion s2 <? 6) = true) by (apply Z.ltb_lt; lia).
      congruence.
    - apply Z.ltb_ge in H1, H2. congruence. }
  assert (Hgate : collation_unsupported this s1 = collation_unsupported this s2).
  { unfold collation_unsupported, SUPPORTS_WRITE_CONCERN_AND_COLLATION.
    now rewrite H5. }
  assert (Hwc : forall c, attach_writeConcern_collation this s1 c
                          = attach_writeConcern_collation this s2 c).
  { intros c.
    unfold attach_writeConcern_collation, SUPPORTS_WRITE_CONCERN_AND_COLLATION.
    now rewrite H5'. }
  assert (Hex : forall c, apply_explain this s1 c = apply_explain this s2 c).
  { intros c. unfold apply_explain. now rewrite H6. }
  rewrite !callerCmd_executeCommand, !sentCommands_executeCommand,
    !reportedErrors_executeCommand.
  rewrite Hgate. destruct (collation_unsupported this s2).
  - repeat split; intros; discriminate.
  - rewrite Hwc, Hex. repeat split; intros; reflexivity.
Qed.

End FurtherProperties.

(* ===================================================================== *)
(** ** The further properties on concrete calls *)
(* ===================================================================== *)

Section FurtherInstances.
Import Sample.

(** A read concern reaches a [find] at wire version 4. *)
Lemma readConcern_attached_exactly_when_witness :
  lookup (callerCmd (executeCommand op_concerns legacy_server find_cmd))
    "readConcern" = Some (VObject majority)
  /\ lookup (callerCmd (executeCommand op_concerns legacy_server update_cmd))
       "readConcern" = lookup update_cmd "readConcern".
Proof.
  split.
  - apply (proj1 (readConcern_attached_exactly_when op_concerns legacy_server
                    find_cmd) majority); reflexivity.
  - apply (proj2 (readConcern_attached_exactly_when op_concerns legacy_server
                    update_cmd)).
    right. left. reflexivity.
Defined.

(** A collation given as the string ["en"] is dropped at wire version 5. *)
Lemma collation_attached_exactly_when_witness :
  lookup (callerCmd (executeCommand op_limits server_3_4 update_cmd))
    "collation" = lookup update_cmd "collation"
  /\ reportedErrors (events (executeCommand op_limits server_3_4 update_cmd))
     = [].
Proof.
  split.
  - apply (proj1 (proj2 (collation_attached_exactly_when op_limits server_3_4
                           update_cmd))).
    right. right. discriminate.
  - apply (proj2 (proj2 (collation_attached_exactly_when op_limits server_3_4
                           update_cmd)));
      [discriminate | reflexivity | discriminate].
Defined.

(** A limit of 0 is written; a limit given as a string is not. *)
Lemma maxTimeMS_set_exactly_when_witness :
  lookup (callerCmd (executeCommand op_limits server_3_4 update_cmd))
    "maxTimeMS" = Some (get (merged_options op_limits) "maxTimeMS")
  /\ lookup
       (callerCmd (executeCommand op_document_comment server_3_4 update_cmd))
       "maxTimeMS" = lookup update_cmd "maxTimeMS".
Proof.
  split.
  - apply (proj1 (maxTimeMS_set_exactly_when op_limits server_3_4 update_cmd));
      [right; discriminate | reflexivity].
  - apply (proj2 (maxTimeMS_set_exactly_when op_document_comment server_3_4
                    update_cmd)).
    right. discriminate.
Defined.

(** A string comment is written; a document comment is not. *)
Lemma comment_set_exactly_when_witness :
  lookup (callerCmd (executeCommand op_limits server_3_4 update_cmd))
    "comment" = Some (get (merged_options op_limits) "comment")
  /\ lookup
       (callerCmd (executeCommand op_document_comment legacy_server update_cmd))
       "comment" = lookup update_cmd "comment".
Proof.
  split.
  - apply (proj1 (comment_set_exactly_when op_limits server_3_4 update_cmd));
      [right; discriminate | reflexivity].
  - apply (proj2 (comment_set_exactly_when op_document_comment legacy_server
                    update_cmd)).
    right. discriminate.
Defined.

(** The verb of a decorated [find] is still its first key. *)
Lemma caller_fields_kept_in_order_witness :
  hd_error (map fst (callerCmd (executeCommand op_concerns server_3_4 find_cmd)))
  = hd_error (map fst find_cmd)
  /\ lookup (callerCmd (executeCommand op_concerns server_3_4 find_cmd)) "filter"
     = lookup find_cmd "filter".
Proof.
  split.
  - apply (proj2 (proj2 (caller_fields_kept_in_order op_concerns server_3_4
                           find_cmd))).
    discriminate.
  - apply (proj1 (proj2 (caller_fields_kept_in_order op_concerns server_3_4
                           find_cmd))).
    unfold decoration_keys. simpl. intuition discriminate.
Defined.

Lemma exactly_one_outcome_witness :
  reportedErrors (events (executeCommand op_collation server_3_4 update_cmd))
  = []
  /\ sentCommands (events (executeCommand op_collation legacy_server update_cmd))
     = [].
Proof.
  split.
  - apply (proj2 (proj1 (proj2 (exactly_one_outcome op_collation server_3_4
                                  update_cmd)))).
    right. discriminate.
  - apply (proj2 (proj2 (proj2 (exactly_one_outcome op_collation legacy_server
                                  update_cmd)))).
    split; reflexivity.
Defined.

(** Refused at wire version 4, an update with no read concern is untouched. *)
Lemma failed_call_writes_only_readConcern_witness :
  callerCmd (executeCommand op_collation legacy_server update_cmd) = update_cmd.
Proof.
  destruct (failed_call_writes_only_readConcern op_collation legacy_server
              update_cmd) as (_ & Hsame & _);
    [reflexivity | reflexivity |].
  apply Hsame. left. reflexivity.
Defined.

(** The log of an explained aggregate shows it without the explain form. *)
Lemma debug_log_precedes_send_witness :
  exists logged sent,
    events (executeCommand op_explain_logged server_3_6 aggregate_cmd)
    = [LoggerDebug logged (ns op_explain_logged);
       ServerCommand (namespace_toString (ns op_explain_logged)) sent
         (exec_options op_explain_logged)]
    /\ lookup logged "explain" = lookup aggregate_cmd "explain".
Proof.
  destruct (proj1 (debug_log_precedes_send op_explain_logged server_3_6
                     aggregate_cmd) (mkLogger true) eq_refl eq_refl
              (or_introl eq_refl))
    as (logged & sent & Hev & _ & Hexp & _).
  exists logged, sent. split; [exact Hev | exact Hexp].
Defined.

(** A plain write built without [explain] can retry writes. *)
Lemma construction_outcomes_witness :
  exists op,
    new_CommandOperation plain_write None (Some [("w", VNumber 1)])
    = Returned op
    /\ explain op = None
    /\ canRetryWrite op = true.
Proof.
  eexists. split; [reflexivity|].
  destruct (proj1 (proj2 (construction_outcomes plain_write None
                            (Some [("w", VNumber 1)]))) _ eq_refl eq_refl)
    as (_ & He & Hretry & _).
  split; [exact He | exact Hretry].
Defined.

(** The options of a call carry the operation's options as they are. *)
Lemma options_forwarded_unchanged_witness :
  exists c o,
    sentCommands (events (executeCommand op_limits server_3_4 update_cmd))
    = [(namespace_toString (ns op_limits), c, o)]
    /\ lookup o "comment" = lookup (options op_limits) "comment"
    /\ lookup o "promoteLongs" = None.
Proof.
  destruct (proj1 (options_forwarded_unchanged op_limits server_3_4
                     update_cmd))
    as (c & o & Hsent & Hsame & Habsent & _); [right; discriminate|].
  exists c, o. split; [exact Hsent|]. split.
  - apply Hsame. discriminate.
  - apply Habsent; [discriminate | reflexivity].
Defined.

(** Wire versions 6 and 9 get the same explained aggregate. *)
Lemma decoration_depends_on_version_band_witness :
  callerCmd (executeCommand op_explain server_3_6 aggregate_cmd)
  = callerCmd (executeCommand op_explain server_4_4 aggregate_cmd)
  /\ sentCommands (events (executeCommand op_explain server_3_6 aggregate_cmd))
     = sentCommands (events (executeCommand op_explain server_4_4 aggregate_cmd)).
Proof.
  destruct (decoration_depends_on_version_band op_explain server_3_6
              server_4_4 aggregate_cmd) as (Hdoc & Hsent & _).
  - right. split; discriminate.
  - split; [exact Hdoc | exact Hsent].
Defined.

End FurtherInstances.
